(** * LandSetHeightAction: a shallow embedding of
    src/openrct2/actions/LandSetHeightAction.cpp

    The tile element store is modelled the way the game keeps it: one packed
    array [_tileElements] in which the elements of a tile are contiguous, the
    last one carrying the last-for-tile flag, and a table of tile pointers
    giving the index of each tile's first element.  Iteration over a tile is
    the [do { ... } while (!(p++)->IsLastForTile())] loop of the source,
    removal is [tile_element_remove], which compacts the tile in place.

    Query and Execute are written in a small state monad over the world, the
    global settings (park flags, screen flags, cheats) are a read-only
    record. *)

From Stdlib Require Import ZArith List Bool Lia.
Import ListNotations.
Open Scope Z_scope.

(** ** Constants of the headers the action includes *)

Definition COORDS_XY_STEP : Z := 32.
Definition COORDS_Z_STEP : Z := 8.
Definition WATER_HEIGHT_STEP : Z := 16.

(** Modelled from the spec: the minimum and maximum allowed land heights of
    world/Map.h (outside src/), in height units. *)
Definition MINIMUM_LAND_HEIGHT : Z := 2.
Definition MAXIMUM_LAND_HEIGHT : Z := 254.
Definition MAX_ELEMENT_HEIGHT : Z := 255.

(** Modelled from the spec: the technical map size of world/Map.h; a
    location is valid when both axes are inside it ("cell must be within
    world bounds"). *)
Definition MAXIMUM_MAP_SIZE_TECHNICAL : Z := 256.
Definition MAXIMUM_MAP_SIZE_BIG : Z := COORDS_XY_STEP * MAXIMUM_MAP_SIZE_TECHNICAL.

(** Slope bits of a surface element (world/Surface.h). *)
Definition TILE_ELEMENT_SLOPE_N_CORNER_UP : Z := 1.
Definition TILE_ELEMENT_SLOPE_E_CORNER_UP : Z := 2.
Definition TILE_ELEMENT_SLOPE_S_CORNER_UP : Z := 4.
Definition TILE_ELEMENT_SLOPE_W_CORNER_UP : Z := 8.
Definition TILE_ELEMENT_SLOPE_DOUBLE_HEIGHT : Z := 16.
Definition TILE_ELEMENT_SLOPE_S_CORNER_DN : Z := 11.
Definition TILE_ELEMENT_SLOPE_W_CORNER_DN : Z := 7.
Definition TILE_ELEMENT_SLOPE_N_CORNER_DN : Z := 14.
Definition TILE_ELEMENT_SLOPE_E_CORNER_DN : Z := 13.
Definition TILE_ELEMENT_SURFACE_RAISED_CORNERS_MASK : Z := 15.
Definition TILE_ELEMENT_SURFACE_DIAGONAL_FLAG : Z := 16.
Definition TILE_ELEMENT_SURFACE_SLOPE_MASK : Z := 31.

(** Park and screen flags (world/Park.h, OpenRCT2.h). *)
Definition PARK_FLAGS_FORBID_LANDSCAPE_CHANGES : Z := Z.shiftl 1 2.
Definition PARK_FLAGS_FORBID_TREE_REMOVAL : Z := Z.shiftl 1 3.
Definition SCREEN_FLAGS_SCENARIO_EDITOR : Z := 2.

(** [MONEY(whole, 0)] of management/Finance.h: money32 counts tenths. *)
Definition MONEY (whole fraction : Z) : Z := whole * 10 + Z.quot fraction 10.

(** Fixed-width wrap-around. *)
Definition u8 (z : Z) : Z := z mod 256.
Definition u32 (z : Z) : Z := z mod 2 ^ 32.

(** ** Data model *)

Record CoordsXY := { cx : Z; cy : Z }.
Record CoordsXYZ := { px : Z; py : Z; pz : Z }.
Record CoordsXYRangedZ := { rx : Z; ry : Z; rbaseZ : Z; rclearanceZ : Z }.

(** Entry data of a small scenery object: its removal price and whether it is
    flagged [SMALL_SCENERY_FLAG_IS_TREE]. *)
Record SmallSceneryEntry := { removal_price : Z; is_tree : bool }.

(** The type-specific part of a tile element.  The surface keeps its slope,
    its stored water height (in [WATER_HEIGHT_STEP] units), its ownership and
    whether track above it needs the water. *)
Inductive ElementPayload :=
| SurfacePayload (slope : Z) (WaterHeight : Z) (owned : bool) (track_needs_water : bool)
| PathPayload (level_crossing : bool)
| TrackPayload (ride_index : Z)
| SmallSceneryPayload (entry : SmallSceneryEntry)
| EntrancePayload
| WallPayload
| LargeSceneryPayload
| BannerPayload.

Inductive TileElementType :=
| TILE_ELEMENT_TYPE_SURFACE
| TILE_ELEMENT_TYPE_PATH
| TILE_ELEMENT_TYPE_TRACK
| TILE_ELEMENT_TYPE_SMALL_SCENERY
| TILE_ELEMENT_TYPE_ENTRANCE
| TILE_ELEMENT_TYPE_WALL
| TILE_ELEMENT_TYPE_LARGE_SCENERY
| TILE_ELEMENT_TYPE_BANNER.

Definition TileElementType_eqb (a b : TileElementType) : bool :=
  match a, b with
  | TILE_ELEMENT_TYPE_SURFACE, TILE_ELEMENT_TYPE_SURFACE
  | TILE_ELEMENT_TYPE_PATH, TILE_ELEMENT_TYPE_PATH
  | TILE_ELEMENT_TYPE_TRACK, TILE_ELEMENT_TYPE_TRACK
  | TILE_ELEMENT_TYPE_SMALL_SCENERY, TILE_ELEMENT_TYPE_SMALL_SCENERY
  | TILE_ELEMENT_TYPE_ENTRANCE, TILE_ELEMENT_TYPE_ENTRANCE
  | TILE_ELEMENT_TYPE_WALL, TILE_ELEMENT_TYPE_WALL
  | TILE_ELEMENT_TYPE_LARGE_SCENERY, TILE_ELEMENT_TYPE_LARGE_SCENERY
  | TILE_ELEMENT_TYPE_BANNER, TILE_ELEMENT_TYPE_BANNER => true
  | _, _ => false
  end.

Record TileElement := {
  payload : ElementPayload;
  base_height : Z;
  clearance_height : Z;
  is_ghost : bool;
  last_for_tile : bool
}.

Definition GetType (e : TileElement) : TileElementType :=
  match payload e with
  | SurfacePayload _ _ _ _ => TILE_ELEMENT_TYPE_SURFACE
  | PathPayload _ => TILE_ELEMENT_TYPE_PATH
  | TrackPayload _ => TILE_ELEMENT_TYPE_TRACK
  | SmallSceneryPayload _ => TILE_ELEMENT_TYPE_SMALL_SCENERY
  | EntrancePayload => TILE_ELEMENT_TYPE_ENTRANCE
  | WallPayload => TILE_ELEMENT_TYPE_WALL
  | LargeSceneryPayload => TILE_ELEMENT_TYPE_LARGE_SCENERY
  | BannerPayload => TILE_ELEMENT_TYPE_BANNER
  end.

Definition GetBaseZ (e : TileElement) : Z := base_height e * COORDS_Z_STEP.
Definition GetClearanceZ (e : TileElement) : Z := clearance_height e * COORDS_Z_STEP.

Definition with_payload (e : TileElement) (p : ElementPayload) : TileElement :=
  {| payload := p; base_height := base_height e; clearance_height := clearance_height e;
     is_ghost := is_ghost e; last_for_tile := last_for_tile e |}.
Definition with_base_height (e : TileElement) (z : Z) : TileElement :=
  {| payload := payload e; base_height := z; clearance_height := clearance_height e;
     is_ghost := is_ghost e; last_for_tile := last_for_tile e |}.
Definition with_clearance_height (e : TileElement) (z : Z) : TileElement :=
  {| payload := payload e; base_height := base_height e; clearance_height := z;
     is_ghost := is_ghost e; last_for_tile := last_for_tile e |}.
Definition SetLastForTile (e : TileElement) (b : bool) : TileElement :=
  {| payload := payload e; base_height := base_height e;
     clearance_height := clearance_height e; is_ghost := is_ghost e; last_for_tile := b |}.

(** Modelled from the spec: the surface accessors of world/Surface.cpp.
    The water height is stored in [WATER_HEIGHT_STEP] units and read back in
    world coordinates. *)
Definition GetWaterHeight (e : TileElement) : Z :=
  match payload e with
  | SurfacePayload _ wh _ _ => wh * WATER_HEIGHT_STEP
  | _ => 0
  end.
Definition SetWaterHeight (e : TileElement) (h : Z) : TileElement :=
  match payload e with
  | SurfacePayload s _ o t => with_payload e (SurfacePayload s (h / WATER_HEIGHT_STEP) o t)
  | _ => e
  end.
Definition GetSlope (e : TileElement) : Z :=
  match payload e with SurfacePayload s _ _ _ => s | _ => 0 end.
Definition SetSlope (e : TileElement) (s : Z) : TileElement :=
  match payload e with
  | SurfacePayload _ wh o t => with_payload e (SurfacePayload s wh o t)
  | _ => e
  end.
Definition HasTrackThatNeedsWater (e : TileElement) : bool :=
  match payload e with SurfacePayload _ _ _ t => t | _ => false end.
Definition IsOwned (e : TileElement) : bool :=
  match payload e with SurfacePayload _ _ o _ => o | _ => false end.

(** Modelled from the spec: [PathElement::IsLevelCrossing] ("a path element
    marked as an active level crossing"). *)
Definition IsLevelCrossing (e : TileElement) : bool :=
  match payload e with PathPayload b => b | _ => false end.

(** A ride, as far as [CheckRideSupports] reads it: the entry's
    [max_height] (when the entry exists) and the ride type's default maximum. *)
Record Ride := { ride_entry_max_height : option Z; type_max_height : Z }.

(** The world: the packed element array, the tile pointer table (indexed by
    tile coordinates), the litter sprites, the rides and the park's cash. *)
Record World := {
  tile_elements : list TileElement;
  tile_pointers : list ((Z * Z) * Z);
  litter : list CoordsXYZ;
  rides : list (Z * Ride);
  gCash : Z
}.

(** Global settings read by the action. *)
Record Globals := {
  gParkFlags : Z;
  gScreenFlags : Z;
  gCheatsSandboxMode : bool;
  gCheatsDisableClearanceChecks : bool;
  gCheatsDisableSupportLimits : bool;
  gMapSizeMaxXY : Z
}.

(** The action's parameters: [_coords], [_height] and [_style] (uint8). *)
Record LandSetHeightAction := { _coords : CoordsXY; _height : Z; _style : Z }.

Inductive rct_string_id :=
| STR_NONE
| STR_FORBIDDEN_BY_THE_LOCAL_AUTHORITY
| STR_OFF_EDGE_OF_MAP
| STR_TOO_LOW
| STR_TOO_HIGH
| STR_LAND_NOT_OWNED_BY_PARK
| STR_SUPPORTS_CANT_BE_EXTENDED
| STR_REMOVE_LEVEL_CROSSING_FIRST
| STR_OTHER (id : Z).

Inductive Status := Ok | Disallowed | Unknown.
Inductive ExpenditureType := Landscaping.

(** The error message of a result: none, a string id with its arguments
    (as returned by the construction-clearance collaborator), or the
    obstruction text that [map_obstruction_set_error_text] formats for an
    element. *)
Inductive ErrorMessage :=
| MsgNone
| MsgString (id : rct_string_id) (args : list Z)
| MsgObstruction (e : option TileElement).

Record Result := {
  Error : Status;
  ErrorTitle : rct_string_id;
  ErrorMessageOf : ErrorMessage;
  Cost : Z;
  Expenditure : option ExpenditureType;
  Position : option CoordsXYZ
}.

(** [std::make_unique<Result>(status, title)] and [MakeResult]. *)
Definition MakeResult (s : Status) (title : rct_string_id) : Result :=
  {| Error := s; ErrorTitle := title; ErrorMessageOf := MsgNone; Cost := 0;
     Expenditure := None; Position := None |}.
Definition set_message (r : Result) (m : ErrorMessage) : Result :=
  {| Error := Error r; ErrorTitle := ErrorTitle r; ErrorMessageOf := m; Cost := Cost r;
     Expenditure := Expenditure r; Position := Position r |}.
Definition map_obstruction_set_error_text (e : option TileElement) (r : Result) : Result :=
  set_message r (MsgObstruction e).

(** ** The packed element store *)

Definition elt_get (a : list TileElement) (i : Z) : option TileElement :=
  if i <? 0 then None else nth_error a (Z.to_nat i).

Fixpoint update_nat (a : list TileElement) (n : nat) (f : TileElement -> TileElement)
  : list TileElement :=
  match a, n with
  | [], _ => []
  | e :: r, O => f e :: r
  | e :: r, S m => e :: update_nat r m f
  end.

(** Writing a slot; a write outside the array is not modelled (no-op). *)
Definition elt_update (a : list TileElement) (i : Z) (f : TileElement -> TileElement)
  : list TileElement :=
  if i <? 0 then a else update_nat a (Z.to_nat i) f.

Definition elt_set (a : list TileElement) (i : Z) (e : TileElement) : list TileElement :=
  elt_update a i (fun _ => e).

(** [IsLastForTile] of a slot; no read past the array is modelled. *)
Definition is_last (a : list TileElement) (i : Z) : bool :=
  match elt_get a i with Some e => last_for_tile e | None => true end.

(** Modelled from the spec ("cell must be within world bounds (both axis
    limits)"): [LocationValid] / [map_is_location_valid]. *)
Definition LocationValid (c : CoordsXY) : bool :=
  (0 <=? cx c) && (cx c <? MAXIMUM_MAP_SIZE_BIG) && (0 <=? cy c) && (cy c <? MAXIMUM_MAP_SIZE_BIG).

Fixpoint assoc_lookup {A : Type} (eqb : A -> A -> bool) {B : Type} (l : list (A * B)) (k : A)
  : option B :=
  match l with
  | [] => None
  | (k', v) :: r => if eqb k k' then Some v else assoc_lookup eqb r k
  end.

Definition tile_eqb (a b : Z * Z) : bool := (fst a =? fst b) && (snd a =? snd b).

(** Modelled from the spec ([getFirstElement(cell)]):
    [map_get_first_element_at], the tile pointer of a valid location. *)
Definition map_get_first_element_at (w : World) (c : CoordsXY) : option Z :=
  if LocationValid c
  then assoc_lookup tile_eqb (tile_pointers w) (cx c / COORDS_XY_STEP, cy c / COORDS_XY_STEP)
  else None.

(** The elements a [do { ... } while (!(p++)->IsLastForTile())] loop visits,
    with their indices, from the tile's first element to its last one. *)
Fixpoint tile_walk (fuel : nat) (a : list TileElement) (p : Z) : list (Z * TileElement) :=
  match fuel with
  | O => []
  | S f =>
      match elt_get a p with
      | None => []
      | Some e => (p, e) :: (if last_for_tile e then [] else tile_walk f a (p + 1))
      end
  end.

Definition tile_stack (w : World) (c : CoordsXY) : list (Z * TileElement) :=
  match map_get_first_element_at w c with
  | None => []
  | Some p => tile_walk (length (tile_elements w)) (tile_elements w) p
  end.

(** [tile_element_remove] (world/Map.cpp): the elements after the removed one
    are copied down one slot until the last one of the tile, the new last
    element gets the last-for-tile flag and the freed slot is marked with
    [MAX_ELEMENT_HEIGHT]. *)
Fixpoint shift_down (fuel : nat) (a : list TileElement) (p : Z) : list TileElement * Z :=
  match fuel with
  | O => (a, p)
  | S f =>
      let a' := match elt_get a (p + 1) with Some n => elt_set a p n | None => a end in
      if is_last a' (p + 1) then (a', p + 1) else shift_down f a' (p + 1)
  end.

Definition tile_element_remove (a : list TileElement) (p : Z) : list TileElement :=
  let '(a1, q) := if is_last a p then (a, p) else shift_down (length a) a p in
  let a2 := elt_update a1 (q - 1) (fun e => SetLastForTile e true) in
  elt_update a2 q (fun e => with_base_height e MAX_ELEMENT_HEIGHT).

Definition set_elements (w : World) (a : list TileElement) : World :=
  {| tile_elements := a; tile_pointers := tile_pointers w; litter := litter w;
     rides := rides w; gCash := gCash w |}.
Definition set_litter (w : World) (l : list CoordsXYZ) : World :=
  {| tile_elements := tile_elements w; tile_pointers := tile_pointers w; litter := l;
     rides := rides w; gCash := gCash w |}.

(** ** A state monad over the world *)

Definition M (A : Type) : Type := World -> A * World.
Definition ret {A : Type} (x : A) : M A := fun w => (x, w).
Definition bind {A B : Type} (m : M A) (k : A -> M B) : M B :=
  fun w => let '(x, w') := m w in k x w'.
Definition get_world : M World := fun w => (w, w).
Definition modify (f : World -> World) : M unit := fun w => (tt, f w).

Notation "x <- m ;; k" := (bind m (fun x => k))
  (at level 61, m at next level, right associativity).
Notation "m ;;; k" := (bind m (fun _ => k))
  (at level 61, right associativity).

(** ** Collaborators of world/Map.cpp and world/Footpath.cpp *)

Definition is_type (t : TileElementType) (e : TileElement) : bool :=
  TileElementType_eqb (GetType e) t.

Fixpoint find_first (P : TileElement -> bool) (l : list (Z * TileElement))
  : option (Z * TileElement) :=
  match l with
  | [] => None
  | (p, e) :: r => if P e then Some (p, e) else find_first P r
  end.

(** Modelled from the spec ([getSurfaceElement(cell)]):
    [map_get_surface_element_at], the first surface element of the tile. *)
Definition map_get_surface_element_at (w : World) (c : CoordsXY) : option (Z * TileElement) :=
  find_first (is_type TILE_ELEMENT_TYPE_SURFACE) (tile_stack w c).

(** Modelled from the spec ([getFootpathElement(coords)]):
    [map_get_footpath_element], the first path element of the tile whose base
    is at the given z. *)
Definition map_get_footpath_element (w : World) (c : CoordsXYZ) : option (Z * TileElement) :=
  find_first (fun e => is_type TILE_ELEMENT_TYPE_PATH e && (GetBaseZ e =? pz c))
    (tile_stack w {| cx := px c; cy := py c |}).

(** Modelled from the spec ("the target cell must lie within park-owned
    territory"): [map_is_location_in_park], a valid location whose surface is
    owned by the park. *)
Definition map_is_location_in_park (w : World) (c : CoordsXY) : bool :=
  LocationValid c &&
  match map_get_surface_element_at w c with
  | Some (_, s) => IsOwned s
  | None => false
  end.

(** Modelled from the spec ("Corner height: the effective elevation at one of
    a cell's four corners, derived from base height + slope style"):
    [map_get_corner_height] of world/Map.cpp.  A raised corner is 2 units
    up, the raised corner of a diagonal slope 4 units. *)
Definition map_get_corner_height (z slope direction : Z) : Z :=
  let corner (up dn : Z) :=
    if Z.land slope up =? 0 then z
    else if slope =? Z.lor dn TILE_ELEMENT_SLOPE_DOUBLE_HEIGHT then z + 4 else z + 2 in
  if direction =? 0 then corner TILE_ELEMENT_SLOPE_N_CORNER_UP TILE_ELEMENT_SLOPE_S_CORNER_DN
  else if direction =? 1 then corner TILE_ELEMENT_SLOPE_E_CORNER_UP TILE_ELEMENT_SLOPE_W_CORNER_DN
  else if direction =? 2 then corner TILE_ELEMENT_SLOPE_S_CORNER_UP TILE_ELEMENT_SLOPE_N_CORNER_DN
  else if direction =? 3 then corner TILE_ELEMENT_SLOPE_W_CORNER_UP TILE_ELEMENT_SLOPE_E_CORNER_DN
  else z.

(** [tile_element_get_corner_height]: the corner height of a surface. *)
Definition tile_element_get_corner_height (s : TileElement) (direction : Z) : Z :=
  map_get_corner_height (base_height s) (GetSlope s) direction.

(** Modelled from the spec: [tile_element_height], the surface height of the
    tile in world coordinates ([MINIMUM_LAND_HEIGHT] when there is no
    surface); it only places the litter search and the position hint. *)
Definition tile_element_height (w : World) (c : CoordsXY) : Z :=
  if negb (LocationValid c) then MINIMUM_LAND_HEIGHT * COORDS_Z_STEP
  else match map_get_surface_element_at w c with
       | Some (_, s) => GetBaseZ s
       | None => MINIMUM_LAND_HEIGHT * COORDS_Z_STEP
       end.

(** Modelled from the spec ("litter cleanup"): [footpath_remove_litter]
    removes the litter of the tile within 32 world units of the height. *)
Definition footpath_remove_litter (pos : CoordsXYZ) (w : World) : World :=
  set_litter w
    (filter (fun l => negb ((px l / COORDS_XY_STEP =? px pos / COORDS_XY_STEP)
                            && (py l / COORDS_XY_STEP =? py pos / COORDS_XY_STEP)
                            && (Z.abs (pz l - pz pos) <=? 32)))
       (litter w)).

(** Modelled from the spec ("wall removal"): [wall_remove_at] removes, one at
    a time, every wall of the tile whose height range meets the given one
    ([map_get_wall_element_at] then [tile_element_remove]). *)
Definition map_get_wall_element_at (w : World) (pos : CoordsXYRangedZ) : option Z :=
  option_map fst
    (find_first (fun e => is_type TILE_ELEMENT_TYPE_WALL e
                          && (GetBaseZ e <? rclearanceZ pos) && (rbaseZ pos <? GetClearanceZ e))
       (tile_stack w {| cx := rx pos; cy := ry pos |})).

Fixpoint wall_remove_loop (fuel : nat) (pos : CoordsXYRangedZ) (w : World) : World :=
  match fuel with
  | O => w
  | S f =>
      match map_get_wall_element_at w pos with
      | None => w
      | Some p => wall_remove_loop f pos (set_elements w (tile_element_remove (tile_elements w) p))
      end
  end.

Definition wall_remove_at (pos : CoordsXYRangedZ) (w : World) : World :=
  wall_remove_loop (length (tile_elements w)) pos w.

Definition get_ride (w : World) (i : Z) : option Ride := assoc_lookup Z.eqb (rides w) i.

(** ** LandSetHeightAction *)

Section Action.

Variable act : LandSetHeightAction.

(** [LandSetHeightAction::CheckParameters] *)
Definition CheckParameters (g : Globals) : rct_string_id :=
  let c := _coords act in
  if negb (LocationValid c) then STR_OFF_EDGE_OF_MAP
  else if (cx c >? gMapSizeMaxXY g) || (cy c >? gMapSizeMaxXY g) then STR_OFF_EDGE_OF_MAP
  else if _height act <? MINIMUM_LAND_HEIGHT then STR_TOO_LOW
  else if _height act >? MAXIMUM_LAND_HEIGHT then STR_TOO_HIGH
  else if (_height act >? MAXIMUM_LAND_HEIGHT - 2)
          && negb (Z.land (_style act) TILE_ELEMENT_SURFACE_SLOPE_MASK =? 0) then STR_TOO_HIGH
  else if (_height act =? MAXIMUM_LAND_HEIGHT - 2)
          && negb (Z.land (_style act) TILE_ELEMENT_SURFACE_DIAGONAL_FLAG =? 0) then STR_TOO_HIGH
  else STR_NONE.

(** The height test shared by the three small scenery loops: the element
    is skipped when [_height > clearance_height] or
    [_height + 4 < base_height]. *)
Definition in_height_range (e : TileElement) : bool :=
  negb (_height act >? clearance_height e) && negb (_height act + 4 <? base_height e).

(** [LandSetHeightAction::CheckTreeObstructions] *)
Fixpoint check_tree_loop (l : list (Z * TileElement)) : option TileElement :=
  match l with
  | [] => None
  | (_, e) :: r =>
      match payload e with
      | SmallSceneryPayload entry =>
          if in_height_range e && is_tree entry then Some e else check_tree_loop r
      | _ => check_tree_loop r
      end
  end.

Definition CheckTreeObstructions (w : World) : option TileElement :=
  check_tree_loop (tile_stack w (_coords act)).

(** [LandSetHeightAction::GetSmallSceneryRemovalCost] *)
Fixpoint removal_cost_loop (l : list (Z * TileElement)) : Z :=
  match l with
  | [] => 0
  | (_, e) :: r =>
      match payload e with
      | SmallSceneryPayload entry =>
          if in_height_range e then MONEY (removal_price entry) 0 + removal_cost_loop r
          else removal_cost_loop r
      | _ => removal_cost_loop r
      end
  end.

Definition GetSmallSceneryRemovalCost (w : World) : Z :=
  removal_cost_loop (tile_stack w (_coords act)).

(** [LandSetHeightAction::SmallSceneryRemoval]: the loop over the packed
    array, with [tile_element_remove(tileElement--)] stepping the cursor
    back after a removal.  Each turn either advances the cursor or removes
    an element, so [2 * length + 1] turns are enough. *)
Definition removable_small_scenery (e : TileElement) : bool :=
  is_type TILE_ELEMENT_TYPE_SMALL_SCENERY e && in_height_range e.

Fixpoint small_scenery_removal_loop (fuel : nat) (a : list TileElement) (p : Z)
  : list TileElement :=
  match fuel with
  | O => a
  | S f =>
      let '(a', p') :=
        match elt_get a p with
        | Some e => if removable_small_scenery e then (tile_element_remove a p, p - 1) else (a, p)
        | None => (a, p)
        end in
      if is_last a' p' then a' else small_scenery_removal_loop f a' (p' + 1)
  end.

Definition SmallSceneryRemoval (w : World) : World :=
  match map_get_first_element_at w (_coords act) with
  | None => w
  | Some p =>
      set_elements w
        (small_scenery_removal_loop (2 * length (tile_elements w) + 1) (tile_elements w) p)
  end.

(** [LandSetHeightAction::CheckRideSupports] *)
Fixpoint ride_supports_loop (w : World) (l : list (Z * TileElement)) : rct_string_id :=
  match l with
  | [] => STR_NONE
  | (_, e) :: r =>
      match payload e with
      | TrackPayload rideIndex =>
          match get_ride w rideIndex with
          | Some ride =>
              match ride_entry_max_height ride with
              | Some mh =>
                  let maxHeight := if mh =? 0 then type_max_height ride else mh in
                  let zDelta := clearance_height e - _height act in
                  if (zDelta >=? 0) && (Z.quot zDelta 2 >? maxHeight)
                  then STR_SUPPORTS_CANT_BE_EXTENDED
                  else ride_supports_loop w r
              | None => ride_supports_loop w r
              end
          | None => ride_supports_loop w r
          end
      | _ => ride_supports_loop w r
      end
  end.

Definition CheckRideSupports (w : World) : rct_string_id :=
  ride_supports_loop w (tile_stack w (_coords act)).

(** [LandSetHeightAction::CheckFloatingStructures]; [zCorner] is a uint8_t
    and [waterHeight] a uint32_t.  The obstruction returned is the slot
    after the surface ([++surfaceElement]). *)
Definition CheckFloatingStructures (w : World) (si : Z) (s : TileElement) (zCorner : Z)
  : option (option TileElement) :=
  if HasTrackThatNeedsWater s then
    let waterHeight := u32 (GetWaterHeight s) in
    if waterHeight =? 0 then None
    else
      let zc :=
        if Z.land (_style act) TILE_ELEMENT_SURFACE_SLOPE_MASK =? 0 then zCorner
        else if Z.land (_style act) TILE_ELEMENT_SURFACE_DIAGONAL_FLAG =? 0 then u8 (zCorner + 2)
        else u8 (u8 (zCorner + 2) + 2) in
      if zc >? u32 (waterHeight / COORDS_Z_STEP - 2)
      then Some (elt_get (tile_elements w) (si + 1))
      else None
  else None.

(** [LandSetHeightAction::CheckUnremovableObstructions]; pointers are
    compared through their indices in the array. *)
Fixpoint unremovable_loop (si zCorner : Z) (l : list (Z * TileElement)) : option TileElement :=
  match l with
  | [] => None
  | (p, e) :: r =>
      if is_type TILE_ELEMENT_TYPE_WALL e then unremovable_loop si zCorner r
      else if is_type TILE_ELEMENT_TYPE_SMALL_SCENERY e then unremovable_loop si zCorner r
      else if is_ghost e then unremovable_loop si zCorner r
      else if p =? si then unremovable_loop si zCorner r
      else if p >? si then
        (if zCorner >? base_height e then Some e else unremovable_loop si zCorner r)
      else if _height act <? clearance_height e then Some e
      else unremovable_loop si zCorner r
  end.

Definition CheckUnremovableObstructions (w : World) (si zCorner : Z) : option TileElement :=
  unremovable_loop si zCorner (tile_stack w (_coords act)).

(** [LandSetHeightAction::GetSurfaceHeightChangeCost]: over the four
    directions, [MONEY(abs(cornerHeight) * 5 / 2, 0)] with C division. *)
Definition corner_cost (s : TileElement) (i : Z) : Z :=
  let cornerHeight := tile_element_get_corner_height s i
    - map_get_corner_height (_height act) (Z.land (_style act) TILE_ELEMENT_SURFACE_SLOPE_MASK) i in
  MONEY (Z.quot (Z.abs cornerHeight * 5) 2) 0.

Definition GetSurfaceHeightChangeCost (s : TileElement) : Z :=
  corner_cost s 0 + corner_cost s 1 + corner_cost s 2 + corner_cost s 3.

(** [LandSetHeightAction::SetSurfaceHeight] on the element at index [si];
    [map_invalidate_tile_full] only redraws. *)
Definition set_surface_height_element (e : TileElement) : TileElement :=
  let e1 := SetSlope (with_clearance_height (with_base_height e (_height act)) (_height act))
              (_style act) in
  let waterHeight := GetWaterHeight e1 / COORDS_Z_STEP in
  if negb (waterHeight =? 0) && (waterHeight <=? _height act) then SetWaterHeight e1 0 else e1.

Definition SetSurfaceHeight (si : Z) (w : World) : World :=
  set_elements w (elt_update (tile_elements w) si set_surface_height_element).

End Action.

Definition gets {A : Type} (f : World -> A) : M A := fun w => (f w, w).

Definition is_STR_NONE (s : rct_string_id) : bool :=
  match s with STR_NONE => true | _ => false end.

(** The result of a successful Query / Execute. *)
Definition OkResult (cost : Z) (pos : option CoordsXYZ) : Result :=
  {| Error := Ok; ErrorTitle := STR_NONE; ErrorMessageOf := MsgNone; Cost := cost;
     Expenditure := Some Landscaping; Position := pos |}.

Section Query.

(** Modelled from the spec ("Construction-clearance collaborator: given a
    3D volume and a clearance callback, returns Ok or a structured failure
    with a localized message and arguments"): [MapCanConstructWithClearAt]
    with [map_set_land_height_clear_func] and flags 0, which reads the world
    and answers [None] for Ok or the failure's message and arguments. *)
Variable MapCanConstructWithClearAt : World -> CoordsXYRangedZ -> option (rct_string_id * list Z).

(** [LandSetHeightAction::Query] *)
Definition Query (g : Globals) (act : LandSetHeightAction) : M Result :=
  let c := _coords act in
  if negb (Z.land (gParkFlags g) PARK_FLAGS_FORBID_LANDSCAPE_CHANGES =? 0)
  then ret (MakeResult Disallowed STR_FORBIDDEN_BY_THE_LOCAL_AUTHORITY) else
  let errorTitle := CheckParameters act g in
  if negb (is_STR_NONE errorTitle) then ret (MakeResult Disallowed errorTitle) else
  inPark <- gets (fun w => map_is_location_in_park w c) ;;
  if (Z.land (gScreenFlags g) SCREEN_FLAGS_SCENARIO_EDITOR =? 0)
     && negb (gCheatsSandboxMode g) && negb inPark
  then ret (MakeResult Disallowed STR_LAND_NOT_OWNED_BY_PARK) else
  tree <- (if negb (gCheatsDisableClearanceChecks g)
              && negb (Z.land (gParkFlags g) PARK_FLAGS_FORBID_TREE_REMOVAL =? 0)
           then gets (CheckTreeObstructions act) else ret None) ;;
  match tree with
  | Some e => ret (map_obstruction_set_error_text (Some e) (MakeResult Disallowed STR_NONE))
  | None =>
  sceneryRemovalCost <- (if negb (gCheatsDisableClearanceChecks g)
                         then gets (GetSmallSceneryRemovalCost act) else ret 0) ;;
  supports <- (if negb (gCheatsDisableSupportLimits g)
               then gets (CheckRideSupports act) else ret STR_NONE) ;;
  if negb (is_STR_NONE supports) then ret (MakeResult Disallowed supports) else
  surface <- gets (fun w => map_get_surface_element_at w c) ;;
  match surface with
  | None => ret (MakeResult Unknown STR_NONE)
  | Some (si, s) =>
  pathElement <- gets (fun w => map_get_footpath_element w
                                  {| px := cx c; py := cy c; pz := GetBaseZ s |}) ;;
  if match pathElement with Some (_, pe) => IsLevelCrossing pe | None => false end
  then ret (MakeResult Disallowed STR_REMOVE_LEVEL_CROSSING_FIRST) else
  floating <- gets (fun w => CheckFloatingStructures act w si s (_height act)) ;;
  match floating with
  | Some obstruction =>
      ret (map_obstruction_set_error_text obstruction (MakeResult Disallowed STR_NONE))
  | None =>
  let okResult := OkResult (sceneryRemovalCost + GetSurfaceHeightChangeCost act s) None in
  if negb (gCheatsDisableClearanceChecks g) then
    let zCorner :=
      if Z.land (_style act) TILE_ELEMENT_SURFACE_RAISED_CORNERS_MASK =? 0 then _height act
      else if Z.land (_style act) TILE_ELEMENT_SURFACE_DIAGONAL_FLAG =? 0
      then u8 (_height act + 2) else u8 (u8 (_height act + 2) + 2) in
    clearResult <- gets (fun w => MapCanConstructWithClearAt w
                           {| rx := cx c; ry := cy c; rbaseZ := _height act * COORDS_Z_STEP;
                              rclearanceZ := zCorner * COORDS_Z_STEP |}) ;;
    match clearResult with
    | Some (msg, args) => ret (set_message (MakeResult Disallowed STR_NONE) (MsgString msg args))
    | None =>
    obstruction <- gets (fun w => CheckUnremovableObstructions act w si zCorner) ;;
    match obstruction with
    | Some e => ret (map_obstruction_set_error_text (Some e) (MakeResult Disallowed STR_NONE))
    | None => ret okResult
    end
    end
  else ret okResult
  end
  end
  end.

End Query.

(** [LandSetHeightAction::Execute] *)
Definition Execute (g : Globals) (act : LandSetHeightAction) : M Result :=
  let c := _coords act in
  surfaceHeight <- gets (fun w => tile_element_height w c) ;;
  modify (footpath_remove_litter {| px := cx c; py := cy c; pz := surfaceHeight |}) ;;;
  sceneryCost <-
    (if negb (gCheatsDisableClearanceChecks g) then
       modify (wall_remove_at {| rx := cx c; ry := cy c; rbaseZ := _height act * 8 - 16;
                                 rclearanceZ := _height act * 8 + 32 |}) ;;;
       cost <- gets (GetSmallSceneryRemovalCost act) ;;
       modify (SmallSceneryRemoval act) ;;;
       ret cost
     else ret 0) ;;
  surface <- gets (fun w => map_get_surface_element_at w c) ;;
  match surface with
  | None => ret (MakeResult Unknown STR_NONE)
  | Some (si, s) =>
      let cost := sceneryCost + GetSurfaceHeightChangeCost act s in
      modify (SetSurfaceHeight act si) ;;;
      ret (OkResult cost (Some {| px := cx c + 16; py := cy c + 16; pz := surfaceHeight |}))
  end.

(** The three gates Query evaluates before any obstruction rule: the
    landscape-change flag, the parameters and the ownership of the cell. *)
Definition query_gates_pass (g : Globals) (act : LandSetHeightAction) (w : World) : Prop :=
  Z.land (gParkFlags g) PARK_FLAGS_FORBID_LANDSCAPE_CHANGES = 0 /\
  CheckParameters act g = STR_NONE /\
  (Z.land (gScreenFlags g) SCREEN_FLAGS_SCENARIO_EDITOR <> 0 \/ gCheatsSandboxMode g = true
   \/ map_is_location_in_park w (_coords act) = true).

(** ** Concrete worlds used to evaluate the action *)

Definition mkElement (p : ElementPayload) (b c : Z) (last : bool) : TileElement :=
  {| payload := p; base_height := b; clearance_height := c; is_ghost := false;
     last_for_tile := last |}.

(** A flat, park-owned surface at height [z], without water. *)
Definition flat_surface (z : Z) (last : bool) : TileElement :=
  mkElement (SurfacePayload 0 0 true false) z z last.

Definition small_scenery (price b c : Z) (tree last : bool) : TileElement :=
  mkElement (SmallSceneryPayload {| removal_price := price; is_tree := tree |}) b c last.

(** Default settings: no park flag, not in the editor, no cheat. *)
Definition default_globals : Globals :=
  {| gParkFlags := 0; gScreenFlags := 0; gCheatsSandboxMode := false;
     gCheatsDisableClearanceChecks := false; gCheatsDisableSupportLimits := false;
     gMapSizeMaxXY := 8000 |}.

Definition globals_with_park_flags (flags : Z) : Globals :=
  {| gParkFlags := flags; gScreenFlags := 0; gCheatsSandboxMode := false;
     gCheatsDisableClearanceChecks := false; gCheatsDisableSupportLimits := false;
     gMapSizeMaxXY := 8000 |}.

(** Default settings with the clearance checks cheat on. *)
Definition globals_no_clearance : Globals :=
  {| gParkFlags := 0; gScreenFlags := 0; gCheatsSandboxMode := false;
     gCheatsDisableClearanceChecks := true; gCheatsDisableSupportLimits := false;
     gMapSizeMaxXY := 8000 |}.

(** A construction-clearance collaborator that finds nothing in the way. *)
Definition clear_everywhere (_ : World) (_ : CoordsXYRangedZ) : option (rct_string_id * list Z) :=
  None.

(** Two tiles packed one after the other: tile (0,0) holds one surface,
    tile (1,0) starts at index 1 and holds [elems]. *)
Definition two_tile_world (elems : list TileElement) (l : list CoordsXYZ) : World :=
  {| tile_elements := flat_surface 2 true :: elems;
     tile_pointers := [((0, 0), 0); ((1, 0), 1)];
     litter := l; rides := []; gCash := 0 |}.

Definition tile_1_0 : CoordsXY := {| cx := 32; cy := 0 |}.

Definition action_at (h style : Z) : LandSetHeightAction :=
  {| _coords := tile_1_0; _height := h; _style := style |}.

(** Tile (1,0): a flat surface at 14 and nothing else. *)
Definition world_flat_14 : World := two_tile_world [flat_surface 14 true] [].

(** Tile (1,0): two qualifying small scenery items stored below the surface
    (prices 5 and 7), then the surface at 14. *)
Definition scenery_a : TileElement := small_scenery 5 10 14 false false.
Definition scenery_b : TileElement := small_scenery 7 12 16 false false.
Definition world_scenery_first : World :=
  two_tile_world [scenery_a; scenery_b; flat_surface 14 true] [].

(** Tile (1,0): a surface at 14 with an active level crossing on it. *)
Definition world_level_crossing : World :=
  two_tile_world [flat_surface 14 false; mkElement (PathPayload true) 14 16 true] [].

(** Tile (1,0): no surface, one small scenery item, and a litter sprite. *)
Definition world_no_surface : World :=
  two_tile_world [small_scenery 5 14 18 false true] [{| px := 40; py := 8; pz := 16 |}].

(** Tile (1,0): a surface at 14 with a tree (price 3) standing on it. *)
Definition tree_14 : TileElement := small_scenery 3 14 18 true true.
Definition world_tree : World := two_tile_world [flat_surface 14 false; tree_14] [].

(** Tile (1,0): a surface at 14 and above it a track piece (clearance 40)
    of ride 0, whose entry allows supports of height 5. *)
Definition track_40 : TileElement := mkElement (TrackPayload 0) 14 40 true.
Definition world_track : World :=
  {| tile_elements := [flat_surface 2 true; flat_surface 14 false; track_40];
     tile_pointers := [((0, 0), 0); ((1, 0), 1)];
     litter := []; rides := [(0, {| ride_entry_max_height := Some 5; type_max_height := 10 |})];
     gCash := 0 |}.

(** A computation that only reads the world. *)
Definition reads_only {A : Type} (m : M A) : Prop := forall w, snd (m w) = w.

(** ** Reading computations *)

Lemma ret_reads_only {A : Type} (x : A) : reads_only (ret x).
Proof. intro w. reflexivity. Qed.

Lemma gets_reads_only {A : Type} (f : World -> A) : reads_only (gets f).
Proof. intro w. reflexivity. Qed.

Lemma bind_reads_only {A B : Type} (m : M A) (k : A -> M B) :
  reads_only m -> (forall x, reads_only (k x)) -> reads_only (bind m k).
Proof.
  intros Hm Hk w. unfold bind.
  destruct (m w) as [x w'] eqn:E.
  rewrite Hk. specialize (Hm w). rewrite E in Hm. exact Hm.
Qed.

Lemma reads_only_value {A : Type} (m : M A) (w : World) :
  reads_only m -> m w = (fst (m w), w).
Proof. intro H. specialize (H w). destruct (m w); simpl in *; congruence. Qed.

Create HintDb reads.
#[local] Hint Resolve ret_reads_only gets_reads_only : reads.

Ltac reads_only_step :=
  match goal with
  | |- reads_only (bind _ _) => apply bind_reads_only; [ | intro ]
  | |- reads_only (if ?b then _ else _) => destruct b
  | |- reads_only (match ?x with _ => _ end) => destruct x
  | |- reads_only (let '(_, _) := ?x in _) => destruct x
  end.

Ltac reads_only_solve := repeat (auto with reads; reads_only_step).

Lemma Query_reads_only F g act : reads_only (Query F g act).
Proof. unfold Query. reads_only_solve. Qed.

(** C1: Query leaves the world (the element store, the litter, the rides
    and the park's cash, the ledger) exactly as it found it; every mutation
    of the action is in Execute. *)
Theorem Query_does_not_mutate F g act w :
  snd (Query F g act w) = w.
Proof. apply Query_reads_only. Qed.

(** C2: two successive Query calls with the same parameters and settings,
    the second on the world the first returned, give the same result
    (status, cost and error message). *)
Theorem Query_twice_same_result F g act w :
  fst (Query F g act (snd (Query F g act w))) = fst (Query F g act w).
Proof. rewrite (Query_reads_only F g act w). reflexivity. Qed.

(** ** The cost model *)

Ltac destruct_all_in H :=
  repeat match type of H with
         | context [if ?b then _ else _] => let E := fresh "E" in destruct b eqn:E
         | context [match ?x with _ => _ end] =>
             lazymatch x with
             | context [match _ with _ => _ end] => fail
             | _ => let E := fresh "E" in destruct x eqn:E
             end
         end.

(** C3, refuted: a flat surface at 14 raised to 15 (one unit at each corner)
    costs 80, raised to 16 (two units at each corner) costs 200; no fixed
    per-unit rate gives both, because each corner is charged
    [MONEY(|d| * 5 / 2, 0)] with integer division. *)
Lemma height_change_cost_not_linear :
  ~ (exists rate : Z,
       Cost (fst (Query clear_everywhere default_globals (action_at 15 0) world_flat_14)) = rate * 4
    /\ Cost (fst (Query clear_everywhere default_globals (action_at 16 0) world_flat_14)) = rate * 8).
Proof.
  intros [rate [H1 H2]].
  assert (C15 : Cost (fst (Query clear_everywhere default_globals (action_at 15 0) world_flat_14))
                = 80) by (vm_compute; reflexivity).
  assert (C16 : Cost (fst (Query clear_everywhere default_globals (action_at 16 0) world_flat_14))
                = 200) by (vm_compute; reflexivity).
  rewrite C15 in H1. rewrite C16 in H2. lia.
Qed.

Lemma Query_ok_cost F g act w r :
  fst (Query F g act w) = r -> Error r = Ok ->
  exists si s, map_get_surface_element_at w (_coords act) = Some (si, s) /\
    Cost r = (if gCheatsDisableClearanceChecks g then 0 else GetSmallSceneryRemovalCost act w)
             + GetSurfaceHeightChangeCost act s.
Proof.
  intros H Hok. unfold Query, bind, gets, ret in H.
  destruct_all_in H; subst r; simpl in *; try discriminate.
  all: exists z, t; split; [reflexivity |].
  all: destruct (gCheatsDisableClearanceChecks g); simpl in *; try discriminate; lia.
Qed.

Lemma corner_money_floor (d : Z) :
  MONEY (Z.quot (Z.abs d * 5) 2) 0 = 10 * (5 * Z.abs d / 2).
Proof.
  unfold MONEY. change (Z.quot 0 10) with 0.
  rewrite Z.quot_div_nonneg by lia.
  rewrite (Z.mul_comm (Z.abs d) 5). ring.
Qed.

Lemma corner_money_even (d : Z) :
  Z.even d = true -> MONEY (Z.quot (Z.abs d * 5) 2) 0 = 25 * Z.abs d.
Proof.
  intro He. rewrite corner_money_floor.
  apply Z.even_spec in He. destruct He as [k ->].
  rewrite Z.abs_mul. change (Z.abs 2) with 2.
  replace (5 * (2 * Z.abs k)) with (5 * Z.abs k * 2) by ring.
  rewrite Z.div_mul by lia. ring.
Qed.

Lemma Execute_ok_cost g act w r :
  let c := _coords act in
  let w1 := footpath_remove_litter {| px := cx c; py := cy c; pz := tile_element_height w c |} w in
  let w2 := wall_remove_at {| rx := cx c; ry := cy c; rbaseZ := _height act * 8 - 16;
                              rclearanceZ := _height act * 8 + 32 |} w1 in
  fst (Execute g act w) = r -> Error r = Ok ->
  exists si s,
    map_get_surface_element_at
      (if gCheatsDisableClearanceChecks g then w1 else SmallSceneryRemoval act w2) c = Some (si, s)
    /\ Cost r = (if gCheatsDisableClearanceChecks g then 0 else GetSmallSceneryRemovalCost act w2)
                + GetSurfaceHeightChangeCost act s.
Proof.
  cbv zeta. intros H Hok. unfold Execute, bind, gets, ret, modify in H.
  destruct (gCheatsDisableClearanceChecks g) eqn:Hd; simpl in H;
    destruct_all_in H; subst r; simpl in Hok; try discriminate;
    do 2 eexists; (split; [reflexivity | simpl; ring]).
Qed.

(** C3 (amended): the height-change cost charges each of the four corners
    [10 * (5 * |d| / 2)], [d] the difference between the corner's current
    height and its height under the new height and style, which is
    [25 * |d|] when [d] is even (a flat surface raised by 2 units costs
    4 * 50); the cost of a successful Query is the small scenery removal
    cost (0 when clearance checks are disabled) plus that height-change
    cost, and Execute charges the same sum, with the scenery cost taken
    just before the scenery is removed and the height-change cost of the
    surface it finds. *)
Theorem land_height_cost_model :
  (forall act s,
     let d i := tile_element_get_corner_height s i
                - map_get_corner_height (_height act)
                    (Z.land (_style act) TILE_ELEMENT_SURFACE_SLOPE_MASK) i in
     GetSurfaceHeightChangeCost act s
       = 10 * (5 * Z.abs (d 0) / 2) + 10 * (5 * Z.abs (d 1) / 2)
         + 10 * (5 * Z.abs (d 2) / 2) + 10 * (5 * Z.abs (d 3) / 2)
     /\ (Z.even (d 0) && Z.even (d 1) && Z.even (d 2) && Z.even (d 3) = true ->
         GetSurfaceHeightChangeCost act s
           = 25 * (Z.abs (d 0) + Z.abs (d 1) + Z.abs (d 2) + Z.abs (d 3))))
  /\ (forall F g act w r,
        fst (Query F g act w) = r -> Error r = Ok ->
        exists si s, map_get_surface_element_at w (_coords act) = Some (si, s) /\
          Cost r = (if gCheatsDisableClearanceChecks g then 0
                    else GetSmallSceneryRemovalCost act w)
                   + GetSurfaceHeightChangeCost act s)
  /\ (forall g act w r,
        let c := _coords act in
        let w1 := footpath_remove_litter
                    {| px := cx c; py := cy c; pz := tile_element_height w c |} w in
        let w2 := wall_remove_at {| rx := cx c; ry := cy c; rbaseZ := _height act * 8 - 16;
                                    rclearanceZ := _height act * 8 + 32 |} w1 in
        fst (Execute g act w) = r -> Error r = Ok ->
        exists si s,
          map_get_surface_element_at
            (if gCheatsDisableClearanceChecks g then w1 else SmallSceneryRemoval act w2) c
          = Some (si, s)
          /\ Cost r = (if gCheatsDisableClearanceChecks g then 0
                       else GetSmallSceneryRemovalCost act w2)
                      + GetSurfaceHeightChangeCost act s).
Proof.
  split; [| split; [exact Query_ok_cost | exact Execute_ok_cost]].
  intros act s d. unfold GetSurfaceHeightChangeCost, corner_cost. fold (d 0) (d 1) (d 2) (d 3).
  split.
  - rewrite !corner_money_floor. reflexivity.
  - intro He. apply andb_prop in He as [He He3]. apply andb_prop in He as [He He2].
    apply andb_prop in He as [He0 He1].
    rewrite !corner_money_even by assumption. ring.
Qed.

(** A successful Query raising the flat surface of [world_flat_14] to 16. *)
Lemma land_height_cost_model_witness :
  Error (fst (Query clear_everywhere default_globals (action_at 16 0) world_flat_14)) = Ok /\
  exists si s, map_get_surface_element_at world_flat_14 tile_1_0 = Some (si, s) /\
    Cost (fst (Query clear_everywhere default_globals (action_at 16 0) world_flat_14))
    = GetSmallSceneryRemovalCost (action_at 16 0) world_flat_14
      + GetSurfaceHeightChangeCost (action_at 16 0) s.
Proof.
  split; [vm_compute; reflexivity |].
  apply (proj1 (proj2 land_height_cost_model) clear_everywhere default_globals
           (action_at 16 0) world_flat_14); [reflexivity | vm_compute; reflexivity].
Defined.

(** ** Small scenery removal *)

(** C4, on a tile whose first element is a qualifying small scenery item:
    in [world_scenery_first], tile (1,0) holds two qualifying items (prices
    5 and 7) stored before its surface.  Execute at height 12 charges both
    prices, but after [tile_element_remove(tileElement--)] at the tile's
    first slot the cursor is on the previous tile's last element, whose
    last-for-tile flag ends the loop: the second item stays in the tile. *)
Theorem Execute_removal_stops_after_first_slot :
  removable_small_scenery (action_at 12 0) scenery_a = true /\
  removable_small_scenery (action_at 12 0) scenery_b = true /\
  map snd (tile_stack world_scenery_first tile_1_0) = [scenery_a; scenery_b; flat_surface 14 true] /\
  Cost (fst (Execute default_globals (action_at 12 0) world_scenery_first))
    = MONEY 5 0 + MONEY 7 0
      + GetSurfaceHeightChangeCost (action_at 12 0) (flat_surface 14 true) /\
  ~ In scenery_a (map snd (tile_stack (snd (Execute default_globals (action_at 12 0)
                                                 world_scenery_first)) tile_1_0)) /\
  In scenery_b (map snd (tile_stack (snd (Execute default_globals (action_at 12 0)
                                               world_scenery_first)) tile_1_0)).
Proof.
  split; [reflexivity |]. split; [reflexivity |]. split; [vm_compute; reflexivity |].
  split; [vm_compute; reflexivity |].
  split.
  - vm_compute. intros [H | [H | H]]; try discriminate; contradiction.
  - vm_compute. left. reflexivity.
Qed.

(** ** Tree protection *)

Lemma check_tree_loop_finds act (l : list (Z * TileElement)) e entry :
  In e (map snd l) -> payload e = SmallSceneryPayload entry -> is_tree entry = true ->
  in_height_range act e = true ->
  exists t, check_tree_loop act l = Some t.
Proof.
  intros Hin Hp Ht Hr. induction l as [| [p e'] r IH]; simpl in *; [contradiction |].
  destruct Hin as [<- | Hin].
  - rewrite Hp, Hr, Ht. eexists; reflexivity.
  - destruct (payload e') as [| | | entry' | | | |]; try (apply IH; assumption).
    destruct (in_height_range act e' && is_tree entry'); [eexists; reflexivity | auto].
Qed.

(** C5: with tree removal forbidden and clearance checks on, a tree among
    the tile's small scenery whose range meets the new height
    ([clearance_height >= _height] and [base_height <= _height + 4]) makes
    Query return Disallowed whatever else is on the tile; once the landscape,
    parameter and ownership gates pass, the result is the tree obstruction
    found by [CheckTreeObstructions], before the ride-support, level-crossing,
    floating-structure and clearance checks and the removal cost. *)
Theorem tree_protection_precedence F g act w e entry :
  Z.land (gParkFlags g) PARK_FLAGS_FORBID_TREE_REMOVAL <> 0 ->
  gCheatsDisableClearanceChecks g = false ->
  In e (map snd (tile_stack w (_coords act))) ->
  payload e = SmallSceneryPayload entry -> is_tree entry = true ->
  clearance_height e >= _height act -> base_height e <= _height act + 4 ->
  Error (fst (Query F g act w)) = Disallowed /\
  (query_gates_pass g act w ->
   exists t, CheckTreeObstructions act w = Some t /\
     fst (Query F g act w)
     = map_obstruction_set_error_text (Some t) (MakeResult Disallowed STR_NONE)).
Proof.
  intros Htf Hcl Hin Hp Htree Hc Hb.
  assert (Hr : in_height_range act e = true).
  { unfold in_height_range. apply andb_true_intro; split; apply negb_true_iff;
      [rewrite Z.gtb_ltb |]; apply Z.ltb_ge; lia. }
  destruct (check_tree_loop_finds act _ e entry Hin Hp Htree Hr) as [t Ht].
  fold (CheckTreeObstructions act w) in Ht.
  apply Z.eqb_neq in Htf.
  unfold Query, bind, gets, ret. split.
  - destruct (negb (_ =? 0)); [reflexivity |].
    destruct (negb (is_STR_NONE _)); [reflexivity |].
    cbv beta iota. destruct (_ && _ && _); [reflexivity |].
    rewrite Hcl, Htf. cbn [negb andb]. cbv beta iota. rewrite Ht. reflexivity.
  - intros [H1 [H2 H3]]. exists t. split; [exact Ht |].
    rewrite H1, H2. cbn [negb andb is_STR_NONE Z.eqb]. cbv beta iota.
    replace ((Z.land (gScreenFlags g) SCREEN_FLAGS_SCENARIO_EDITOR =? 0)
             && negb (gCheatsSandboxMode g) && negb (map_is_location_in_park w (_coords act)))
      with false.
    + rewrite Hcl, Htf. cbn [negb andb]. cbv beta iota. rewrite Ht. reflexivity.
    + destruct H3 as [H3 | [H3 | H3]].
      * apply Z.eqb_neq in H3. rewrite H3. reflexivity.
      * rewrite H3. rewrite andb_false_r. reflexivity.
      * rewrite H3. rewrite andb_false_r. reflexivity.
Qed.

Lemma tree_protection_precedence_witness :
  Error (fst (Query clear_everywhere (globals_with_park_flags PARK_FLAGS_FORBID_TREE_REMOVAL)
                (action_at 14 0) world_tree)) = Disallowed /\
  (query_gates_pass (globals_with_park_flags PARK_FLAGS_FORBID_TREE_REMOVAL) (action_at 14 0)
     world_tree ->
   exists t, CheckTreeObstructions (action_at 14 0) world_tree = Some t /\
     fst (Query clear_everywhere (globals_with_park_flags PARK_FLAGS_FORBID_TREE_REMOVAL)
            (action_at 14 0) world_tree)
     = map_obstruction_set_error_text (Some t) (MakeResult Disallowed STR_NONE)).
Proof.
  apply (tree_protection_precedence clear_everywhere
           (globals_with_park_flags PARK_FLAGS_FORBID_TREE_REMOVAL) (action_at 14 0) world_tree
           tree_14 {| removal_price := 3; is_tree := true |}).
  - vm_compute. discriminate.
  - reflexivity.
  - vm_compute. auto.
  - reflexivity.
  - reflexivity.
  - vm_compute. discriminate.
  - vm_compute. discriminate.
Defined.

(** ** Parameter validation *)

(** C6, refuted as stated for every command: the map-bounds rules come
    first, so an off-map cell with height [MAXIMUM_LAND_HEIGHT] and a raised
    corner is reported off the map, not too high. *)
Lemma check_parameters_off_map_first :
  ~ ((forall act g, MAXIMUM_LAND_HEIGHT - 2 < _height act ->
        Z.land (_style act) TILE_ELEMENT_SURFACE_SLOPE_MASK <> 0 ->
        CheckParameters act g = STR_TOO_HIGH)
     /\ (forall act g, _height act = MAXIMUM_LAND_HEIGHT - 2 ->
        Z.land (_style act) TILE_ELEMENT_SURFACE_DIAGONAL_FLAG <> 0 ->
        CheckParameters act g = STR_TOO_HIGH)).
Proof.
  intros [H _].
  specialize (H {| _coords := {| cx := -32; cy := 0 |}; _height := MAXIMUM_LAND_HEIGHT;
                   _style := TILE_ELEMENT_SLOPE_N_CORNER_UP |} default_globals).
  assert (Hoff : CheckParameters {| _coords := {| cx := -32; cy := 0 |};
                                    _height := MAXIMUM_LAND_HEIGHT;
                                    _style := TILE_ELEMENT_SLOPE_N_CORNER_UP |} default_globals
                 = STR_OFF_EDGE_OF_MAP) by reflexivity.
  rewrite Hoff in H.
  assert (E : STR_OFF_EDGE_OF_MAP = STR_TOO_HIGH)
    by (apply H; vm_compute; [reflexivity | discriminate]).
  discriminate E.
Qed.

(** C6 (amended): a cell outside the map (invalid location, or a coordinate
    beyond the map size) fails validation with [STR_OFF_EDGE_OF_MAP]
    whatever the height and style; for a cell that passes the map-bounds
    rules, a height above [MAXIMUM_LAND_HEIGHT - 2] with any slope bit, or a
    height of exactly [MAXIMUM_LAND_HEIGHT - 2] with the diagonal flag,
    fails validation with [STR_TOO_HIGH]. *)
Theorem check_parameters_too_high act g :
  (LocationValid (_coords act) = false \/ cx (_coords act) > gMapSizeMaxXY g
   \/ cy (_coords act) > gMapSizeMaxXY g ->
   CheckParameters act g = STR_OFF_EDGE_OF_MAP) /\
  (LocationValid (_coords act) = true ->
   cx (_coords act) <= gMapSizeMaxXY g -> cy (_coords act) <= gMapSizeMaxXY g ->
   (MAXIMUM_LAND_HEIGHT - 2 < _height act /\
      Z.land (_style act) TILE_ELEMENT_SURFACE_SLOPE_MASK <> 0) \/
   (_height act = MAXIMUM_LAND_HEIGHT - 2 /\
      Z.land (_style act) TILE_ELEMENT_SURFACE_DIAGONAL_FLAG <> 0) ->
   CheckParameters act g = STR_TOO_HIGH).
Proof.
  split.
  { intros Hoff. unfold CheckParameters.
    destruct (LocationValid (_coords act)) eqn:Hv; [| reflexivity].
    simpl negb. cbn iota.
    destruct Hoff as [Hf | [Hx | Hy]].
    - discriminate Hf.
    - assert (Hx' : (cx (_coords act) >? gMapSizeMaxXY g) = true)
        by (rewrite Z.gtb_ltb; apply Z.ltb_lt; lia).
      rewrite Hx'. reflexivity.
    - assert (Hy' : (cy (_coords act) >? gMapSizeMaxXY g) = true)
        by (rewrite Z.gtb_ltb; apply Z.ltb_lt; lia).
      rewrite Hy', orb_true_r. reflexivity. }
  intros Hv Hx Hy H. unfold CheckParameters. rewrite Hv.
  assert (Hx' : (cx (_coords act) >? gMapSizeMaxXY g) = false) by (rewrite Z.gtb_ltb; apply Z.ltb_ge; lia).
  assert (Hy' : (cy (_coords act) >? gMapSizeMaxXY g) = false) by (rewrite Z.gtb_ltb; apply Z.ltb_ge; lia).
  rewrite Hx', Hy'. simpl negb. cbn [orb].
  assert (Hlow : (_height act <? MINIMUM_LAND_HEIGHT) = false).
  { apply Z.ltb_ge. unfold MINIMUM_LAND_HEIGHT, MAXIMUM_LAND_HEIGHT in *. lia. }
  rewrite Hlow.
  destruct (_height act >? MAXIMUM_LAND_HEIGHT); [reflexivity |].
  destruct H as [[Hh Hs] | [Hh Hd]].
  - assert (E1 : (_height act >? MAXIMUM_LAND_HEIGHT - 2) = true)
      by (rewrite Z.gtb_ltb; apply Z.ltb_lt; lia).
    apply Z.eqb_neq in Hs. rewrite E1, Hs. reflexivity.
  - assert (E1 : (_height act >? MAXIMUM_LAND_HEIGHT - 2) = false)
      by (rewrite Z.gtb_ltb; apply Z.ltb_ge; lia).
    apply Z.eqb_neq in Hd. rewrite Hh in *. rewrite E1, Hd, Z.eqb_refl. reflexivity.
Qed.

Lemma check_parameters_too_high_witness :
  CheckParameters {| _coords := {| cx := 9000; cy := 0 |}; _height := 255;
                     _style := TILE_ELEMENT_SURFACE_DIAGONAL_FLAG |} default_globals
  = STR_OFF_EDGE_OF_MAP /\
  CheckParameters (action_at MAXIMUM_LAND_HEIGHT TILE_ELEMENT_SLOPE_N_CORNER_UP) default_globals
  = STR_TOO_HIGH.
Proof.
  split.
  - apply check_parameters_too_high. right. left. vm_compute. reflexivity.
  - apply check_parameters_too_high.
    + reflexivity.
    + vm_compute. discriminate.
    + vm_compute. discriminate.
    + left. split; vm_compute; [reflexivity | discriminate].
Defined.

(** ** The authorization gate *)

(** C7: with landscape changes forbidden, Query answers Disallowed with
    [STR_FORBIDDEN_BY_THE_LOCAL_AUTHORITY] whatever the parameters and the
    tile hold; outside the scenario editor and sandbox mode, a cell the park
    does not own is answered Disallowed before any obstruction rule: with
    [STR_LAND_NOT_OWNED_BY_PARK], or with the parameter error when the
    parameters, checked just before, are already invalid. *)
Theorem query_authorization_gate F g act w :
  (Z.land (gParkFlags g) PARK_FLAGS_FORBID_LANDSCAPE_CHANGES <> 0 ->
   Query F g act w = (MakeResult Disallowed STR_FORBIDDEN_BY_THE_LOCAL_AUTHORITY, w)) /\
  (Z.land (gParkFlags g) PARK_FLAGS_FORBID_LANDSCAPE_CHANGES = 0 ->
   Z.land (gScreenFlags g) SCREEN_FLAGS_SCENARIO_EDITOR = 0 ->
   gCheatsSandboxMode g = false ->
   map_is_location_in_park w (_coords act) = false ->
   Query F g act w
   = (MakeResult Disallowed (if is_STR_NONE (CheckParameters act g)
                             then STR_LAND_NOT_OWNED_BY_PARK else CheckParameters act g), w)).
Proof.
  split.
  - intro H. apply Z.eqb_neq in H. unfold Query. rewrite H. reflexivity.
  - intros H1 H2 H3 H4. unfold Query, bind, gets, ret.
    rewrite H1. cbn [negb Z.eqb].
    destruct (is_STR_NONE (CheckParameters act g)); cbn [negb]; [| reflexivity].
    cbv beta iota. rewrite H2, H3, H4. reflexivity.
Qed.

Lemma query_authorization_gate_witness :
  Query clear_everywhere (globals_with_park_flags PARK_FLAGS_FORBID_LANDSCAPE_CHANGES)
    (action_at 14 0) world_flat_14
  = (MakeResult Disallowed STR_FORBIDDEN_BY_THE_LOCAL_AUTHORITY, world_flat_14) /\
  Query clear_everywhere default_globals (action_at 14 0)
    (two_tile_world [mkElement (SurfacePayload 0 0 false false) 14 14 true] [])
  = (MakeResult Disallowed STR_LAND_NOT_OWNED_BY_PARK,
     two_tile_world [mkElement (SurfacePayload 0 0 false false) 14 14 true] []).
Proof.
  split.
  - apply (proj1 (query_authorization_gate clear_everywhere
                    (globals_with_park_flags PARK_FLAGS_FORBID_LANDSCAPE_CHANGES)
                    (action_at 14 0) world_flat_14)).
    vm_compute. discriminate.
  - apply (proj2 (query_authorization_gate clear_everywhere default_globals (action_at 14 0)
                    (two_tile_world [mkElement (SurfacePayload 0 0 false false) 14 14 true] [])));
      reflexivity.
Defined.

(** ** The level-crossing guard *)

(** C8, refuted: on [world_level_crossing] the level crossing is reported
    for height 14, but a height above [MAXIMUM_LAND_HEIGHT] is reported as
    too high: the error depends on the target height. *)
Lemma level_crossing_error_depends_on_height :
  ErrorTitle (fst (Query clear_everywhere default_globals (action_at 14 0) world_level_crossing))
    = STR_REMOVE_LEVEL_CROSSING_FIRST /\
  ~ (forall h style,
       ErrorTitle (fst (Query clear_everywhere default_globals (action_at h style)
                          world_level_crossing))
       = STR_REMOVE_LEVEL_CROSSING_FIRST).
Proof.
  split; [vm_compute; reflexivity |].
  intro H. specialize (H 255 0). vm_compute in H. discriminate H.
Qed.

Ltac query_step := cbv beta iota; cbn [negb andb orb is_STR_NONE].

(** C8 (amended): when the tile's surface has, at its current base height,
    a path that is an active level crossing, Query answers Disallowed for
    every target height and style.  The error is that of the first earlier
    check that fails (landscape flag, parameter validation, ownership, tree
    obstruction, ride supports), and [STR_REMOVE_LEVEL_CROSSING_FIRST] once
    all of them pass. *)
Theorem level_crossing_guard F g act w si s pi pe :
  map_get_surface_element_at w (_coords act) = Some (si, s) ->
  map_get_footpath_element w {| px := cx (_coords act); py := cy (_coords act);
                                pz := GetBaseZ s |} = Some (pi, pe) ->
  IsLevelCrossing pe = true ->
  Error (fst (Query F g act w)) = Disallowed /\
  fst (Query F g act w)
  = (if negb (Z.land (gParkFlags g) PARK_FLAGS_FORBID_LANDSCAPE_CHANGES =? 0)
     then MakeResult Disallowed STR_FORBIDDEN_BY_THE_LOCAL_AUTHORITY
     else if negb (is_STR_NONE (CheckParameters act g))
     then MakeResult Disallowed (CheckParameters act g)
     else if (Z.land (gScreenFlags g) SCREEN_FLAGS_SCENARIO_EDITOR =? 0)
             && negb (gCheatsSandboxMode g) && negb (map_is_location_in_park w (_coords act))
     then MakeResult Disallowed STR_LAND_NOT_OWNED_BY_PARK
     else match (if negb (gCheatsDisableClearanceChecks g)
                    && negb (Z.land (gParkFlags g) PARK_FLAGS_FORBID_TREE_REMOVAL =? 0)
                 then CheckTreeObstructions act w else None) with
          | Some e => map_obstruction_set_error_text (Some e) (MakeResult Disallowed STR_NONE)
          | None =>
              if negb (gCheatsDisableSupportLimits g)
                 && negb (is_STR_NONE (CheckRideSupports act w))
              then MakeResult Disallowed (CheckRideSupports act w)
              else MakeResult Disallowed STR_REMOVE_LEVEL_CROSSING_FIRST
          end) /\
  (query_gates_pass g act w ->
   (gCheatsDisableClearanceChecks g = true
    \/ Z.land (gParkFlags g) PARK_FLAGS_FORBID_TREE_REMOVAL = 0
    \/ CheckTreeObstructions act w = None) ->
   (gCheatsDisableSupportLimits g = true \/ CheckRideSupports act w = STR_NONE) ->
   fst (Query F g act w) = MakeResult Disallowed STR_REMOVE_LEVEL_CROSSING_FIRST).
Proof.
  intros Hs Hp Hpe. unfold Query, bind, gets, ret. split; [| split].
  - destruct (negb (Z.land (gParkFlags g) PARK_FLAGS_FORBID_LANDSCAPE_CHANGES =? 0));
      [reflexivity |].
    destruct (negb (is_STR_NONE (CheckParameters act g))); [reflexivity |].
    query_step.
    destruct ((Z.land (gScreenFlags g) SCREEN_FLAGS_SCENARIO_EDITOR =? 0)
              && negb (gCheatsSandboxMode g) && negb (map_is_location_in_park w (_coords act)));
      [reflexivity |].
    destruct (negb (gCheatsDisableClearanceChecks g)
              && negb (Z.land (gParkFlags g) PARK_FLAGS_FORBID_TREE_REMOVAL =? 0));
      query_step; [destruct (CheckTreeObstructions act w); [reflexivity |] |];
      destruct (negb (gCheatsDisableClearanceChecks g)); query_step;
      destruct (negb (gCheatsDisableSupportLimits g)); query_step;
      try (destruct (negb (is_STR_NONE (CheckRideSupports act w))); [reflexivity |]);
      query_step; rewrite Hs; query_step; rewrite Hp; query_step; rewrite Hpe; reflexivity.
  - destruct (negb (Z.land (gParkFlags g) PARK_FLAGS_FORBID_LANDSCAPE_CHANGES =? 0));
      [reflexivity |].
    destruct (negb (is_STR_NONE (CheckParameters act g))); [reflexivity |].
    query_step.
    destruct ((Z.land (gScreenFlags g) SCREEN_FLAGS_SCENARIO_EDITOR =? 0)
              && negb (gCheatsSandboxMode g) && negb (map_is_location_in_park w (_coords act)));
      [reflexivity |].
    destruct (negb (gCheatsDisableClearanceChecks g)
              && negb (Z.land (gParkFlags g) PARK_FLAGS_FORBID_TREE_REMOVAL =? 0));
      query_step; [destruct (CheckTreeObstructions act w); [reflexivity |] |];
      destruct (negb (gCheatsDisableClearanceChecks g)); query_step;
      destruct (negb (gCheatsDisableSupportLimits g)); query_step;
      try (destruct (negb (is_STR_NONE (CheckRideSupports act w))); [reflexivity |]);
      query_step; rewrite Hs; query_step; rewrite Hp; query_step; rewrite Hpe; reflexivity.
  - intros [H1 [H2 H3]] Htree Hsup.
    apply Z.eqb_eq in H1. rewrite H1, H2. query_step.
    replace ((Z.land (gScreenFlags g) SCREEN_FLAGS_SCENARIO_EDITOR =? 0)
             && negb (gCheatsSandboxMode g) && negb (map_is_location_in_park w (_coords act)))
      with false.
    2:{ destruct H3 as [H3 | [H3 | H3]].
        - apply Z.eqb_neq in H3. rewrite H3. reflexivity.
        - rewrite H3. rewrite andb_false_r. reflexivity.
        - rewrite H3. rewrite andb_false_r. reflexivity. }
    query_step.
    assert (HT : negb (gCheatsDisableClearanceChecks g)
                 && negb (Z.land (gParkFlags g) PARK_FLAGS_FORBID_TREE_REMOVAL =? 0) = true ->
                 CheckTreeObstructions act w = None).
    { intro E. destruct Htree as [Hd | [Ht | Ht]].
      - rewrite Hd in E. discriminate E.
      - apply Z.eqb_eq in Ht. rewrite Ht, andb_false_r in E. discriminate E.
      - exact Ht. }
    assert (HS : negb (gCheatsDisableSupportLimits g) = true -> CheckRideSupports act w = STR_NONE).
    { intro E. destruct Hsup as [Hd | Hr]; [rewrite Hd in E; discriminate E | exact Hr]. }
    destruct (negb (gCheatsDisableClearanceChecks g)
              && negb (Z.land (gParkFlags g) PARK_FLAGS_FORBID_TREE_REMOVAL =? 0)) eqn:Et;
      query_step; [rewrite (HT eq_refl); query_step |];
      destruct (negb (gCheatsDisableClearanceChecks g)); query_step;
      destruct (negb (gCheatsDisableSupportLimits g)) eqn:Es; query_step;
      try (rewrite (HS eq_refl); query_step);
      rewrite Hs; query_step; rewrite Hp; query_step; rewrite Hpe; reflexivity.
Qed.

Lemma level_crossing_guard_witness :
  fst (Query clear_everywhere default_globals (action_at 14 0) world_level_crossing)
    = MakeResult Disallowed STR_REMOVE_LEVEL_CROSSING_FIRST /\
  fst (Query clear_everywhere default_globals (action_at 255 0) world_level_crossing)
    = MakeResult Disallowed STR_TOO_HIGH.
Proof.
  split.
  - refine (proj2 (proj2 (level_crossing_guard clear_everywhere default_globals
                            (action_at 14 0) world_level_crossing 1 (flat_surface 14 false)
                            2 (mkElement (PathPayload true) 14 16 true) _ _ _)) _ _ _).
    + vm_compute. reflexivity.
    + vm_compute. reflexivity.
    + vm_compute. reflexivity.
    + unfold query_gates_pass. split; [vm_compute; reflexivity |].
      split; [vm_compute; reflexivity |].
      right. right. vm_compute. reflexivity.
    + right. left. vm_compute. reflexivity.
    + right. vm_compute. reflexivity.
  - rewrite (proj1 (proj2 (level_crossing_guard clear_everywhere default_globals
                             (action_at 255 0) world_level_crossing 1 (flat_surface 14 false)
                             2 (mkElement (PathPayload true) 14 16 true)
                             ltac:(vm_compute; reflexivity) ltac:(vm_compute; reflexivity)
                             ltac:(vm_compute; reflexivity)))).
    vm_compute. reflexivity.
Defined.

(** ** Execute *)

Lemma find_first_spec P l p e :
  find_first P l = Some (p, e) -> In (p, e) l /\ P e = true.
Proof.
  induction l as [| [q x] r IH]; simpl; [discriminate |].
  destruct (P x) eqn:Ex.
  - intro H. injection H as <- <-. auto.
  - intro H. destruct (IH H). auto.
Qed.

Lemma tile_walk_get fuel a q p e :
  In (p, e) (tile_walk fuel a q) -> elt_get a p = Some e.
Proof.
  revert q. induction fuel as [| f IH]; simpl; [contradiction |].
  intro q. destruct (elt_get a q) eqn:Eq; [| contradiction].
  intros [H | H].
  - injection H as <- <-. exact Eq.
  - destruct (last_for_tile t); [contradiction | exact (IH _ H)].
Qed.

Lemma surface_element_in_store w c si s :
  map_get_surface_element_at w c = Some (si, s) ->
  elt_get (tile_elements w) si = Some s /\ GetType s = TILE_ELEMENT_TYPE_SURFACE.
Proof.
  unfold map_get_surface_element_at, tile_stack. intro H.
  apply find_first_spec in H as [Hin Ht].
  split.
  - destruct (map_get_first_element_at w c); [| contradiction].
    exact (tile_walk_get _ _ _ _ _ Hin).
  - unfold is_type in Ht. destruct (GetType s); try discriminate; reflexivity.
Qed.

Lemma update_nat_same a n f e :
  nth_error a n = Some e -> nth_error (update_nat a n f) n = Some (f e).
Proof.
  revert n. induction a as [| x r IH]; intros [| n]; simpl; try discriminate.
  - intro H. injection H as ->. reflexivity.
  - apply IH.
Qed.

Lemma elt_get_update_same a i f e :
  elt_get a i = Some e -> elt_get (elt_update a i f) i = Some (f e).
Proof.
  unfold elt_get, elt_update. destruct (i <? 0); [discriminate |].
  apply update_nat_same.
Qed.

(** C9: when no surface element is found once the removals are done,
    Execute answers Unknown with cost 0 and sets no surface height, but the
    world it leaves is the one after the litter removal and, with clearance
    checks on, the wall and small scenery removals. *)
Theorem Execute_without_surface g act w :
  let c := _coords act in
  let w1 := footpath_remove_litter {| px := cx c; py := cy c; pz := tile_element_height w c |} w in
  let w2 := if gCheatsDisableClearanceChecks g then w1
            else SmallSceneryRemoval act
                   (wall_remove_at {| rx := cx c; ry := cy c; rbaseZ := _height act * 8 - 16;
                                      rclearanceZ := _height act * 8 + 32 |} w1) in
  map_get_surface_element_at w2 c = None ->
  Execute g act w = (MakeResult Unknown STR_NONE, w2).
Proof.
  cbv zeta. intro H. unfold Execute, bind, gets, ret, modify.
  destruct (gCheatsDisableClearanceChecks g); cbn [negb]; cbv beta iota; rewrite H; reflexivity.
Qed.

Lemma Execute_without_surface_witness :
  Error (fst (Execute default_globals (action_at 14 0) world_no_surface)) = Unknown /\
  Cost (fst (Execute default_globals (action_at 14 0) world_no_surface)) = 0 /\
  snd (Execute default_globals (action_at 14 0) world_no_surface) <> world_no_surface.
Proof.
  pose proof (Execute_without_surface default_globals (action_at 14 0) world_no_surface) as H.
  cbv zeta in H. rewrite H by (vm_compute; reflexivity).
  split; [reflexivity |]. split; [reflexivity |].
  vm_compute. discriminate.
Defined.

(** C10: when Execute finds the surface element [s] at index [si], it
    leaves there an element with base and clearance height [_height] and
    slope [_style]; its water height becomes 0 when it was non-zero and, in
    height units, at most [_height], and is unchanged otherwise. *)
Theorem Execute_sets_surface_height g act w si s :
  let c := _coords act in
  let w1 := footpath_remove_litter {| px := cx c; py := cy c; pz := tile_element_height w c |} w in
  let w2 := if gCheatsDisableClearanceChecks g then w1
            else SmallSceneryRemoval act
                   (wall_remove_at {| rx := cx c; ry := cy c; rbaseZ := _height act * 8 - 16;
                                      rclearanceZ := _height act * 8 + 32 |} w1) in
  map_get_surface_element_at w2 c = Some (si, s) ->
  exists e, elt_get (tile_elements (snd (Execute g act w))) si = Some e /\
    base_height e = _height act /\ clearance_height e = _height act /\
    GetSlope e = _style act /\
    (GetWaterHeight s <> 0 -> GetWaterHeight s / COORDS_Z_STEP <= _height act ->
     GetWaterHeight e = 0) /\
    (GetWaterHeight s = 0 \/ _height act < GetWaterHeight s / COORDS_Z_STEP ->
     GetWaterHeight e = GetWaterHeight s).
Proof.
  cbv zeta. intro H.
  destruct (surface_element_in_store _ _ _ _ H) as [Hget Htype].
  assert (Hfinal : tile_elements (snd (Execute g act w))
                   = elt_update (tile_elements
                       (if gCheatsDisableClearanceChecks g
                        then footpath_remove_litter
                               {| px := cx (_coords act); py := cy (_coords act);
                                  pz := tile_element_height w (_coords act) |} w
                        else SmallSceneryRemoval act
                               (wall_remove_at
                                  {| rx := cx (_coords act); ry := cy (_coords act);
                                     rbaseZ := _height act * 8 - 16;
                                     rclearanceZ := _height act * 8 + 32 |}
                                  (footpath_remove_litter
                                     {| px := cx (_coords act); py := cy (_coords act);
                                        pz := tile_element_height w (_coords act) |} w))))
                       si (set_surface_height_element act)).
  { unfold Execute, bind, gets, ret, modify.
    destruct (gCheatsDisableClearanceChecks g); cbn [negb]; cbv beta iota; rewrite H;
      reflexivity. }
  rewrite Hfinal. exists (set_surface_height_element act s).
  split; [exact (elt_get_update_same _ _ _ _ Hget) |].
  unfold GetType in Htype.
  destruct (payload s) as [slope wh own tnw | | | | | | |] eqn:Hp; try discriminate.
  assert (Hw : GetWaterHeight s = wh * WATER_HEIGHT_STEP) by (unfold GetWaterHeight; rewrite Hp; reflexivity).
  assert (Hconv : GetWaterHeight s / COORDS_Z_STEP = wh * 2).
  { rewrite Hw. unfold WATER_HEIGHT_STEP, COORDS_Z_STEP.
    replace (wh * 16) with (wh * 2 * 8) by ring. apply Z.div_mul. lia. }
  unfold set_surface_height_element.
  set (e1 := SetSlope (with_clearance_height (with_base_height s (_height act)) (_height act))
               (_style act)).
  assert (Hp1 : payload e1 = SurfacePayload (_style act) wh own tnw).
  { subst e1. unfold SetSlope, with_payload, with_clearance_height, with_base_height.
    cbn [payload]. rewrite Hp. reflexivity. }
  assert (Hb1 : base_height e1 = _height act /\ clearance_height e1 = _height act).
  { subst e1. unfold SetSlope, with_payload, with_clearance_height, with_base_height.
    cbn [payload]. rewrite Hp. split; reflexivity. }
  assert (Hw1 : GetWaterHeight e1 = GetWaterHeight s).
  { unfold GetWaterHeight. rewrite Hp1, Hp. reflexivity. }
  assert (Hs1 : GetSlope e1 = _style act) by (unfold GetSlope; rewrite Hp1; reflexivity).
  rewrite Hw1, Hconv.
  destruct Hb1 as [Hb1 Hc1].
  destruct (negb (wh * 2 =? 0) && (wh * 2 <=? _height act)) eqn:Ec.
  - apply andb_prop in Ec as [E1 E2]. apply negb_true_iff, Z.eqb_neq in E1.
    apply Z.leb_le in E2.
    set (e2 := SetWaterHeight e1 0).
    assert (Hp2 : payload e2 = SurfacePayload (_style act) (0 / WATER_HEIGHT_STEP) own tnw)
      by (subst e2; unfold SetWaterHeight, with_payload; rewrite Hp1; reflexivity).
    assert (Hb2 : base_height e2 = _height act /\ clearance_height e2 = _height act)
      by (subst e2; unfold SetWaterHeight, with_payload; rewrite Hp1; split; assumption).
    destruct Hb2 as [Hb2 Hc2].
    repeat split; try assumption.
    + unfold GetSlope. rewrite Hp2. reflexivity.
    + intros _ _. unfold GetWaterHeight. rewrite Hp2. reflexivity.
    + unfold WATER_HEIGHT_STEP in Hw. intros [H0 | H0]; lia.
  - repeat split; try assumption.
    + intros H0 H1. exfalso.
      assert (wh <> 0) by (unfold WATER_HEIGHT_STEP in Hw; lia).
      apply andb_false_iff in Ec as [E | E].
      * apply negb_false_iff, Z.eqb_eq in E. lia.
      * apply Z.leb_gt in E. lia.
    + intros _. exact Hw1.
Qed.

(** Tile (1,0): a surface at 2 under water of raw level 2 (height 32, that is
    4 in height units); raising the surface to 6 drains it. *)
Lemma Execute_sets_surface_height_witness :
  exists e,
    elt_get (tile_elements (snd (Execute default_globals (action_at 6 0)
      (two_tile_world [mkElement (SurfacePayload 0 2 true false) 2 2 true] [])))) 1 = Some e /\
    base_height e = 6 /\ clearance_height e = 6 /\ GetWaterHeight e = 0.
Proof.
  pose proof (Execute_sets_surface_height default_globals (action_at 6 0)
    (two_tile_world [mkElement (SurfacePayload 0 2 true false) 2 2 true] []) 1
    (mkElement (SurfacePayload 0 2 true false) 2 2 true)) as T.
  cbv zeta in T.
  destruct (T ltac:(vm_compute; reflexivity)) as [e [He [Hb [Hc [_ [Hw _]]]]]].
  exists e. split; [exact He |]. split; [exact Hb |]. split; [exact Hc |].
  apply Hw; vm_compute; [discriminate | discriminate].
Defined.

(** * Further properties of the action *)

(** Boolean tests on [Z] turned into propositions. *)
Ltac zbool :=
  repeat match goal with
  | H : negb _ = true |- _ => apply negb_true_iff in H
  | H : negb _ = false |- _ => apply negb_false_iff in H
  | H : _ && _ = true |- _ => apply andb_prop in H; destruct H
  | H : _ && _ = false |- _ => apply andb_false_iff in H; destruct H
  | H : _ || _ = true |- _ => apply orb_prop in H; destruct H
  | H : _ || _ = false |- _ => apply orb_false_iff in H; destruct H
  | H : (_ =? _) = true |- _ => apply Z.eqb_eq in H
  | H : (_ =? _) = false |- _ => apply Z.eqb_neq in H
  | H : (_ <? _) = true |- _ => apply Z.ltb_lt in H
  | H : (_ <? _) = false |- _ => apply Z.ltb_ge in H
  | H : (_ <=? _) = true |- _ => apply Z.leb_le in H
  | H : (_ <=? _) = false |- _ => apply Z.leb_gt in H
  | H : (_ >? _) = true |- _ => rewrite Z.gtb_ltb in H; apply Z.ltb_lt in H
  | H : (_ >? _) = false |- _ => rewrite Z.gtb_ltb in H; apply Z.ltb_ge in H
  | H : (_ >=? _) = true |- _ => rewrite Z.geb_leb in H; apply Z.leb_le in H
  | H : (_ >=? _) = false |- _ => rewrite Z.geb_leb in H; apply Z.leb_gt in H
  end.

Ltac destruct_ifs :=
  repeat match goal with
  | |- context [if ?b then _ else _] => let E := fresh "E" in destruct b eqn:E
  end.

Lemma CheckParameters_none_bounds act g :
  CheckParameters act g = STR_NONE ->
  LocationValid (_coords act) = true /\
  cx (_coords act) <= gMapSizeMaxXY g /\ cy (_coords act) <= gMapSizeMaxXY g /\
  MINIMUM_LAND_HEIGHT <= _height act <= MAXIMUM_LAND_HEIGHT /\
  (_height act <= MAXIMUM_LAND_HEIGHT - 2
   \/ Z.land (_style act) TILE_ELEMENT_SURFACE_SLOPE_MASK = 0) /\
  (_height act <> MAXIMUM_LAND_HEIGHT - 2
   \/ Z.land (_style act) TILE_ELEMENT_SURFACE_DIAGONAL_FLAG = 0).
Proof.
  unfold CheckParameters. destruct_ifs; intro H; try discriminate;
    zbool; unfold MINIMUM_LAND_HEIGHT, MAXIMUM_LAND_HEIGHT in *;
    repeat split; try assumption; lia.
Qed.

(** [CheckParameters] accepts exactly the valid cells inside the map size
    with a height between the minimum and the maximum land height, no slope
    bit above [MAXIMUM_LAND_HEIGHT - 2] and no diagonal flag at
    [MAXIMUM_LAND_HEIGHT - 2]. *)
Theorem CheckParameters_accepts act g :
  CheckParameters act g = STR_NONE <->
  LocationValid (_coords act) = true /\
  cx (_coords act) <= gMapSizeMaxXY g /\ cy (_coords act) <= gMapSizeMaxXY g /\
  MINIMUM_LAND_HEIGHT <= _height act <= MAXIMUM_LAND_HEIGHT /\
  (_height act <= MAXIMUM_LAND_HEIGHT - 2
   \/ Z.land (_style act) TILE_ELEMENT_SURFACE_SLOPE_MASK = 0) /\
  (_height act <> MAXIMUM_LAND_HEIGHT - 2
   \/ Z.land (_style act) TILE_ELEMENT_SURFACE_DIAGONAL_FLAG = 0).
Proof.
  split; [apply CheckParameters_none_bounds |].
  intros (HL & Hx & Hy & Hh & Hs & Hd).
  unfold CheckParameters. rewrite HL. cbn [negb].
  unfold MINIMUM_LAND_HEIGHT, MAXIMUM_LAND_HEIGHT in *.
  destruct_ifs; zbool; try reflexivity; lia.
Qed.

Lemma land_slope_mask_raised s :
  Z.land s TILE_ELEMENT_SURFACE_SLOPE_MASK = 0 -> Z.land s TILE_ELEMENT_SURFACE_RAISED_CORNERS_MASK = 0.
Proof.
  intro H. unfold TILE_ELEMENT_SURFACE_RAISED_CORNERS_MASK.
  change 15 with (Z.land TILE_ELEMENT_SURFACE_SLOPE_MASK 15).
  rewrite Z.land_assoc, H. reflexivity.
Qed.

Lemma land_slope_mask_diagonal s :
  Z.land s TILE_ELEMENT_SURFACE_SLOPE_MASK = 0 -> Z.land s TILE_ELEMENT_SURFACE_DIAGONAL_FLAG = 0.
Proof.
  intro H. unfold TILE_ELEMENT_SURFACE_DIAGONAL_FLAG.
  change 16 with (Z.land TILE_ELEMENT_SURFACE_SLOPE_MASK 16).
  rewrite Z.land_assoc, H. reflexivity.
Qed.

(** For parameters [CheckParameters] accepts, the [uint8_t zCorner] of
    Query (the height plus 2 for raised corners, plus 2 more for a diagonal
    slope) never wraps around and stays within [MAX_ELEMENT_HEIGHT]. *)
Theorem Query_zCorner_no_wrap act g :
  CheckParameters act g = STR_NONE ->
  let zCorner :=
    if Z.land (_style act) TILE_ELEMENT_SURFACE_RAISED_CORNERS_MASK =? 0 then _height act
    else if Z.land (_style act) TILE_ELEMENT_SURFACE_DIAGONAL_FLAG =? 0
    then u8 (_height act + 2) else u8 (u8 (_height act + 2) + 2) in
  zCorner = _height act
            + (if Z.land (_style act) TILE_ELEMENT_SURFACE_RAISED_CORNERS_MASK =? 0 then 0
               else if Z.land (_style act) TILE_ELEMENT_SURFACE_DIAGONAL_FLAG =? 0 then 2 else 4)
  /\ zCorner <= MAX_ELEMENT_HEIGHT.
Proof.
  intro H. apply CheckParameters_none_bounds in H as (_ & _ & _ & Hh & Hs & Hd).
  cbv zeta. unfold u8, MAX_ELEMENT_HEIGHT.
  unfold MINIMUM_LAND_HEIGHT, MAXIMUM_LAND_HEIGHT in *.
  destruct (Z.land (_style act) TILE_ELEMENT_SURFACE_RAISED_CORNERS_MASK =? 0) eqn:Er;
    zbool; [split; lia |].
  assert (Hs' : _height act <= 252).
  { destruct Hs as [Hs | Hs]; [lia |]. exfalso. apply Er, land_slope_mask_raised, Hs. }
  destruct (Z.land (_style act) TILE_ELEMENT_SURFACE_DIAGONAL_FLAG =? 0) eqn:Eg; zbool.
  - rewrite Z.mod_small by lia. split; lia.
  - assert (Hd' : _height act <> 252).
    { destruct Hd as [Hd | Hd]; [exact Hd |]. contradiction. }
    rewrite (Z.mod_small (_height act + 2)) by lia.
    rewrite Z.mod_small by lia. split; lia.
Qed.

Lemma Query_zCorner_no_wrap_witness :
  CheckParameters (action_at 251 17) default_globals = STR_NONE /\
  (if Z.land 17 TILE_ELEMENT_SURFACE_RAISED_CORNERS_MASK =? 0 then 251
   else if Z.land 17 TILE_ELEMENT_SURFACE_DIAGONAL_FLAG =? 0
   then u8 (251 + 2) else u8 (u8 (251 + 2) + 2)) = 255.
Proof.
  split; [reflexivity |].
  pose proof (Query_zCorner_no_wrap (action_at 251 17) default_globals) as T.
  cbv zeta in T. destruct (T ltac:(reflexivity)) as [T1 _].
  exact T1.
Defined.

Lemma check_tree_loop_spec act l :
  (forall e, check_tree_loop act l = Some e ->
     exists p entry, In (p, e) l /\ payload e = SmallSceneryPayload entry /\
       is_tree entry = true /\ in_height_range act e = true) /\
  (check_tree_loop act l = None ->
     forall p e entry, In (p, e) l -> payload e = SmallSceneryPayload entry ->
       is_tree entry = true -> in_height_range act e = false).
Proof.
  induction l as [| [q x] r [IHs IHn]]; simpl.
  - split; [discriminate | contradiction].
  - destruct (payload x) as [| | | entry | | | |] eqn:Hp;
      try (split;
           [ intros e He; destruct (IHs e He) as (p & en & H1 & H2);
             exists p, en; split; [right; exact H1 | exact H2]
           | intros Hn p e en [Hin | Hin] He Ht;
             [ injection Hin as <- <-; congruence | exact (IHn Hn p e en Hin He Ht) ] ]).
    destruct (in_height_range act x && is_tree entry) eqn:Ei.
    + split; [| discriminate].
      intros e He. injection He as <-. apply andb_prop in Ei as [E1 E2].
      exists q, entry. auto.
    + split.
      * intros e He. destruct (IHs e He) as (p & en & H1 & H2).
        exists p, en. split; [right; exact H1 | exact H2].
      * intros Hn p e en [Hin | Hin] He Ht.
        -- injection Hin as <- <-. rewrite Hp in He. injection He as <-.
           rewrite Ht, andb_true_r in Ei. exact Ei.
        -- exact (IHn Hn p e en Hin He Ht).
Qed.

(** [CheckTreeObstructions] reports only a small scenery tree of the tile in
    the height range ([clearance_height >= _height] and
    [base_height <= _height + 4]), and when it reports nothing the tile holds
    no such tree. *)
Theorem CheckTreeObstructions_spec act w :
  (forall e, CheckTreeObstructions act w = Some e ->
     exists p entry, In (p, e) (tile_stack w (_coords act)) /\
       payload e = SmallSceneryPayload entry /\ is_tree entry = true /\
       clearance_height e >= _height act /\ base_height e <= _height act + 4) /\
  (CheckTreeObstructions act w = None ->
     forall p e entry, In (p, e) (tile_stack w (_coords act)) ->
       payload e = SmallSceneryPayload entry -> is_tree entry = true ->
       _height act > clearance_height e \/ _height act + 4 < base_height e).
Proof.
  destruct (check_tree_loop_spec act (tile_stack w (_coords act))) as [Hs Hn].
  unfold CheckTreeObstructions. split.
  - intros e He. destruct (Hs e He) as (p & entry & H1 & H2 & H3 & H4).
    exists p, entry. unfold in_height_range in H4. zbool.
    split; [exact H1 |]. split; [exact H2 |]. split; [exact H3 | lia].
  - intros HN p e entry Hin He Ht. specialize (Hn HN p e entry Hin He Ht).
    unfold in_height_range in Hn. zbool; lia.
Qed.

Lemma corner_cost_value act s i :
  let d := tile_element_get_corner_height s i
           - map_get_corner_height (_height act)
               (Z.land (_style act) TILE_ELEMENT_SURFACE_SLOPE_MASK) i in
  0 <= corner_cost act s i /\ (corner_cost act s i = 0 <-> d = 0).
Proof.
  cbv zeta. unfold corner_cost. rewrite corner_money_floor.
  set (d := tile_element_get_corner_height s i
            - map_get_corner_height (_height act)
                (Z.land (_style act) TILE_ELEMENT_SURFACE_SLOPE_MASK) i).
  assert (H0 : 0 <= 5 * Z.abs d / 2) by (apply Z.div_pos; lia).
  split; [lia |]. split.
  - intro H. destruct (Z.eq_dec d 0) as [| Hd]; [assumption | exfalso].
    assert (H2 : 5 / 2 <= 5 * Z.abs d / 2) by (apply Z.div_le_mono; lia).
    change (5 / 2) with 2 in H2. lia.
  - intro H. rewrite H. reflexivity.
Qed.

(** The height-change cost is never negative, and it is zero exactly when
    each of the four corners keeps its height under the new height and
    style. *)
Theorem GetSurfaceHeightChangeCost_zero act s :
  0 <= GetSurfaceHeightChangeCost act s /\
  (GetSurfaceHeightChangeCost act s = 0 <->
   forall i, 0 <= i <= 3 ->
     tile_element_get_corner_height s i
     = map_get_corner_height (_height act)
         (Z.land (_style act) TILE_ELEMENT_SURFACE_SLOPE_MASK) i).
Proof.
  unfold GetSurfaceHeightChangeCost.
  destruct (corner_cost_value act s 0) as [P0 Q0].
  destruct (corner_cost_value act s 1) as [P1 Q1].
  destruct (corner_cost_value act s 2) as [P2 Q2].
  destruct (corner_cost_value act s 3) as [P3 Q3].
  cbv zeta in *. split; [lia |]. split.
  - intros H i Hi.
    assert (Hc : i = 0 \/ i = 1 \/ i = 2 \/ i = 3) by lia.
    destruct Hc as [-> | [-> | [-> | ->]]].
    + apply Z.sub_move_0_r, Q0. lia.
    + apply Z.sub_move_0_r, Q1. lia.
    + apply Z.sub_move_0_r, Q2. lia.
    + apply Z.sub_move_0_r, Q3. lia.
  - intro H.
    rewrite (proj2 Q0), (proj2 Q1), (proj2 Q2), (proj2 Q3);
      try (apply Z.sub_move_0_r, H; lia). reflexivity.
Qed.

Lemma set_surface_height_element_shape act s sl wh o t :
  payload s = SurfacePayload sl wh o t ->
  base_height (set_surface_height_element act s) = _height act /\
  clearance_height (set_surface_height_element act s) = _height act /\
  GetSlope (set_surface_height_element act s) = _style act /\
  GetType (set_surface_height_element act s) = TILE_ELEMENT_TYPE_SURFACE /\
  last_for_tile (set_surface_height_element act s) = last_for_tile s.
Proof.
  destruct s as [p b c gh l]. cbn [payload]. intros ->.
  unfold set_surface_height_element, SetSlope, with_clearance_height, with_base_height,
    with_payload, GetWaterHeight, SetWaterHeight, GetSlope, GetType.
  cbn [payload base_height clearance_height last_for_tile].
  destruct_ifs; cbn; auto.
Qed.

Lemma corner_swap a b :
  MONEY (Z.quot (Z.abs (a - b) * 5) 2) 0 = MONEY (Z.quot (Z.abs (b - a) * 5) 2) 0.
Proof. replace (Z.abs (a - b)) with (Z.abs (b - a)) by lia. reflexivity. Qed.

(** Undoing a height change costs what the change cost: once
    [SetSurfaceHeight] has moved a surface to the action's height and style,
    the action back to the old height and slope is charged the same
    height-change cost (slopes within [TILE_ELEMENT_SURFACE_SLOPE_MASK]). *)
Theorem GetSurfaceHeightChangeCost_undo act s sl wh o t :
  payload s = SurfacePayload sl wh o t ->
  Z.land sl TILE_ELEMENT_SURFACE_SLOPE_MASK = sl ->
  Z.land (_style act) TILE_ELEMENT_SURFACE_SLOPE_MASK = _style act ->
  GetSurfaceHeightChangeCost
    {| _coords := _coords act; _height := base_height s; _style := sl |}
    (set_surface_height_element act s)
  = GetSurfaceHeightChangeCost act s.
Proof.
  intros Hp Hsl Hst.
  destruct (set_surface_height_element_shape act s sl wh o t Hp) as (Hb & _ & Hs & _).
  assert (Gs : GetSlope s = sl) by (unfold GetSlope; rewrite Hp; reflexivity).
  unfold GetSurfaceHeightChangeCost, corner_cost, tile_element_get_corner_height.
  cbn [_height _style]. rewrite Hb, Hs, Gs, Hsl, Hst.
  rewrite (corner_swap (map_get_corner_height (_height act) (_style act) 0)),
    (corner_swap (map_get_corner_height (_height act) (_style act) 1)),
    (corner_swap (map_get_corner_height (_height act) (_style act) 2)),
    (corner_swap (map_get_corner_height (_height act) (_style act) 3)).
  reflexivity.
Qed.

Lemma GetSurfaceHeightChangeCost_undo_witness :
  GetSurfaceHeightChangeCost
    {| _coords := tile_1_0; _height := 14; _style := 0 |}
    (set_surface_height_element (action_at 16 5) (flat_surface 14 true))
  = GetSurfaceHeightChangeCost (action_at 16 5) (flat_surface 14 true)
  /\ GetSurfaceHeightChangeCost (action_at 16 5) (flat_surface 14 true) = 300.
Proof.
  split; [| vm_compute; reflexivity].
  apply (GetSurfaceHeightChangeCost_undo (action_at 16 5) (flat_surface 14 true) 0 0 true false);
    reflexivity.
Defined.

Lemma ride_supports_loop_lower act1 act2 w l :
  _height act1 <= _height act2 ->
  ride_supports_loop act2 w l = STR_SUPPORTS_CANT_BE_EXTENDED ->
  ride_supports_loop act1 w l = STR_SUPPORTS_CANT_BE_EXTENDED.
Proof.
  intro Hh. induction l as [| [q x] r IH]; simpl; [discriminate |].
  destruct (payload x); try exact IH.
  destruct (get_ride w ride_index) as [ride |]; [| exact IH].
  destruct (ride_entry_max_height ride) as [mh |]; [| exact IH].
  cbv zeta.
  destruct ((clearance_height x - _height act1 >=? 0)
            && (Z.quot (clearance_height x - _height act1) 2
                >? (if mh =? 0 then type_max_height ride else mh))) eqn:E1;
    [reflexivity |].
  destruct ((clearance_height x - _height act2 >=? 0)
            && (Z.quot (clearance_height x - _height act2) 2
                >? (if mh =? 0 then type_max_height ride else mh))) eqn:E2;
    [| exact IH].
  intros _. exfalso.
  apply andb_prop in E2 as [E2a E2b].
  rewrite Z.geb_leb in E2a. apply Z.leb_le in E2a.
  rewrite Z.gtb_ltb in E2b. apply Z.ltb_lt in E2b.
  rewrite Z.quot_div_nonneg in E2b by lia.
  apply andb_false_iff in E1 as [E1 | E1].
  { rewrite Z.geb_leb in E1. apply Z.leb_gt in E1. lia. }
  rewrite Z.gtb_ltb in E1. apply Z.ltb_ge in E1.
  rewrite Z.quot_div_nonneg in E1 by lia.
  assert ((clearance_height x - _height act2) / 2 <= (clearance_height x - _height act1) / 2)
    by (apply Z.div_le_mono; lia).
  lia.
Qed.

(** Lowering the target only makes the ride supports longer: when
    [CheckRideSupports] refuses a height for the cell, it refuses every
    lower height for the same cell too. *)
Theorem CheckRideSupports_refuses_lower act1 act2 w :
  _coords act1 = _coords act2 -> _height act1 <= _height act2 ->
  CheckRideSupports act2 w = STR_SUPPORTS_CANT_BE_EXTENDED ->
  CheckRideSupports act1 w = STR_SUPPORTS_CANT_BE_EXTENDED.
Proof.
  intros Hc Hh. unfold CheckRideSupports. rewrite Hc.
  apply ride_supports_loop_lower, Hh.
Qed.

Lemma CheckRideSupports_refuses_lower_witness :
  CheckRideSupports (action_at 28 0) world_track = STR_SUPPORTS_CANT_BE_EXTENDED /\
  CheckRideSupports (action_at 30 0) world_track = STR_NONE /\
  CheckRideSupports (action_at 14 0) world_track = STR_SUPPORTS_CANT_BE_EXTENDED.
Proof.
  split; [vm_compute; reflexivity |]. split; [vm_compute; reflexivity |].
  apply (CheckRideSupports_refuses_lower (action_at 14 0) (action_at 28 0) world_track);
    [reflexivity | cbn; lia | vm_compute; reflexivity].
Defined.

Lemma is_type_false t e : is_type t e = false -> GetType e <> t.
Proof. unfold is_type. intros H E. rewrite E in H. destruct t; discriminate. Qed.

Lemma unremovable_loop_spec act si zCorner l :
  (forall e, unremovable_loop act si zCorner l = Some e ->
     exists p, In (p, e) l /\ is_type TILE_ELEMENT_TYPE_WALL e = false /\
       is_type TILE_ELEMENT_TYPE_SMALL_SCENERY e = false /\ is_ghost e = false /\
       ((si < p /\ base_height e < zCorner) \/ (p < si /\ _height act < clearance_height e))) /\
  (unremovable_loop act si zCorner l = None ->
     forall p e, In (p, e) l -> is_type TILE_ELEMENT_TYPE_WALL e = false ->
       is_type TILE_ELEMENT_TYPE_SMALL_SCENERY e = false -> is_ghost e = false ->
       (si < p -> zCorner <= base_height e) /\ (p < si -> clearance_height e <= _height act)).
Proof.
  induction l as [| [q x] r [IHs IHn]]; simpl; [split; [discriminate | contradiction] |].
  destruct (is_type TILE_ELEMENT_TYPE_WALL x) eqn:Ew;
  [| destruct (is_type TILE_ELEMENT_TYPE_SMALL_SCENERY x) eqn:Es;
  [| destruct (is_ghost x) eqn:Eg;
  [| destruct (q =? si) eqn:Eq;
  [| destruct (q >? si) eqn:Eh;
  [ destruct (zCorner >? base_height x) eqn:Ez
  | destruct (_height act <? clearance_height x) eqn:Ez ]]]]].
  all: try (split;
    [ intros e He; destruct (IHs e He) as (p & H1 & H2); exists p; split; [right; exact H1 | exact H2]
    | intros Hn p e [Hin | Hin];
      [ injection Hin as <- <-; intros; try congruence; zbool; split; intro; lia
      | exact (IHn Hn p e Hin) ] ]).
  all: split; [| discriminate]; intros e He; injection He as <-; exists q; zbool;
    split; [left; reflexivity |]; repeat split; try assumption; lia.
Qed.

(** [CheckUnremovableObstructions] reports an element of the tile that is
    neither a wall, small scenery nor a ghost: one stored after the surface
    whose base is below [zCorner], or one stored before it whose clearance is
    above the target height.  When it reports nothing, every such element of
    the tile other than the surface is clear of those bounds. *)
Theorem CheckUnremovableObstructions_spec act w si zCorner :
  (forall e, CheckUnremovableObstructions act w si zCorner = Some e ->
     exists p, In (p, e) (tile_stack w (_coords act)) /\
       GetType e <> TILE_ELEMENT_TYPE_WALL /\ GetType e <> TILE_ELEMENT_TYPE_SMALL_SCENERY /\
       is_ghost e = false /\
       ((si < p /\ base_height e < zCorner) \/ (p < si /\ _height act < clearance_height e))) /\
  (CheckUnremovableObstructions act w si zCorner = None ->
     forall p e, In (p, e) (tile_stack w (_coords act)) ->
       GetType e <> TILE_ELEMENT_TYPE_WALL -> GetType e <> TILE_ELEMENT_TYPE_SMALL_SCENERY ->
       is_ghost e = false ->
       (si < p -> zCorner <= base_height e) /\ (p < si -> clearance_height e <= _height act)).
Proof.
  destruct (unremovable_loop_spec act si zCorner (tile_stack w (_coords act))) as [Hs Hn].
  unfold CheckUnremovableObstructions. split.
  - intros e He. destruct (Hs e He) as (p & H1 & H2 & H3 & H4 & H5).
    exists p. split; [exact H1 |]. split; [exact (is_type_false _ _ H2) |].
    split; [exact (is_type_false _ _ H3) |]. split; assumption.
  - intros HN p e Hin Hw Hs' Hg. apply (Hn HN p e Hin); try assumption.
    + unfold is_type. destruct (GetType e); try reflexivity; contradiction.
    + unfold is_type. destruct (GetType e); try reflexivity; contradiction.
Qed.

(** ** The world Execute produces *)

Lemma update_nat_length a n f : length (update_nat a n f) = length a.
Proof.
  revert n. induction a as [| x r IH]; intros [| n]; simpl; try reflexivity.
  rewrite IH. reflexivity.
Qed.

Lemma elt_update_length a i f : length (elt_update a i f) = length a.
Proof. unfold elt_update. destruct (i <? 0); [reflexivity | apply update_nat_length]. Qed.

Lemma Execute_world g act w :
  let c := _coords act in
  let w1 := footpath_remove_litter {| px := cx c; py := cy c; pz := tile_element_height w c |} w in
  let w2 := if gCheatsDisableClearanceChecks g then w1
            else SmallSceneryRemoval act
                   (wall_remove_at {| rx := cx c; ry := cy c; rbaseZ := _height act * 8 - 16;
                                      rclearanceZ := _height act * 8 + 32 |} w1) in
  snd (Execute g act w)
  = match map_get_surface_element_at w2 c with
    | None => w2
    | Some (si, _) => SetSurfaceHeight act si w2
    end.
Proof.
  cbv zeta. unfold Execute, bind, gets, ret, modify.
  destruct (gCheatsDisableClearanceChecks g); cbn [negb]; cbv beta iota;
    destruct (map_get_surface_element_at _ _) as [[si s] |]; reflexivity.
Qed.

Lemma update_nat_nth a n m f :
  nth_error (update_nat a m f) n
  = if Nat.eqb n m then option_map f (nth_error a n) else nth_error a n.
Proof.
  revert n m. induction a as [| x r IH]; intros [| n] [| m]; simpl;
    try reflexivity; try (destruct (Nat.eqb _ _); reflexivity).
  apply IH.
Qed.

Lemma elt_get_update a i f q :
  elt_get (elt_update a i f) q
  = if q =? i then option_map f (elt_get a q) else elt_get a q.
Proof.
  unfold elt_get, elt_update.
  destruct (q <? 0) eqn:Eq; destruct (i <? 0) eqn:Ei; zbool;
    destruct (q =? i) eqn:E; zbool; try reflexivity; try lia.
  - subst. rewrite update_nat_nth, Nat.eqb_refl. reflexivity.
  - rewrite update_nat_nth.
    replace (Nat.eqb (Z.to_nat q) (Z.to_nat i)) with false; [reflexivity |].
    symmetry. apply Nat.eqb_neq. intro H. apply Z2Nat.inj in H; lia.
Qed.

Lemma elt_get_update_other a i f q :
  q <> i -> elt_get (elt_update a i f) q = elt_get a q.
Proof.
  intro H. rewrite elt_get_update. apply Z.eqb_neq in H. rewrite H. reflexivity.
Qed.

Lemma surface_after_litter pos w c :
  map_get_surface_element_at (footpath_remove_litter pos w) c = map_get_surface_element_at w c.
Proof. reflexivity. Qed.

(** With the clearance checks cheat on, Execute changes no element of the
    array other than the surface element it finds (litter is not kept in
    the array). *)
Theorem Execute_without_clearance_checks_changes_only_surface g act w i :
  gCheatsDisableClearanceChecks g = true ->
  (forall si s, map_get_surface_element_at w (_coords act) = Some (si, s) -> i <> si) ->
  elt_get (tile_elements (snd (Execute g act w))) i = elt_get (tile_elements w) i.
Proof.
  intros Hd Hi. rewrite Execute_world. cbv zeta. rewrite Hd, surface_after_litter.
  destruct (map_get_surface_element_at w (_coords act)) as [[si s] |] eqn:E; [| reflexivity].
  apply elt_get_update_other. exact (Hi si s eq_refl).
Qed.

Lemma Execute_without_clearance_checks_changes_only_surface_witness :
  elt_get (tile_elements (snd (Execute globals_no_clearance (action_at 16 0) world_flat_14))) 0
  = Some (flat_surface 2 true).
Proof.
  apply (Execute_without_clearance_checks_changes_only_surface
           globals_no_clearance (action_at 16 0) world_flat_14 0); [reflexivity |].
  intros si s H. vm_compute in H. injection H as <- _. discriminate.
Defined.

(** With the clearance checks cheat on, Execute carries out what Query
    approved: when Query answers Ok, Execute answers Ok too, with the same
    cost. *)
Theorem Execute_agrees_with_Query_without_clearance_checks F g act w :
  gCheatsDisableClearanceChecks g = true ->
  Error (fst (Query F g act w)) = Ok ->
  Error (fst (Execute g act w)) = Ok /\
  Cost (fst (Execute g act w)) = Cost (fst (Query F g act w)).
Proof.
  intros Hd Hok.
  destruct (Query_ok_cost F g act w _ eq_refl Hok) as (si & s & Hs & Hc).
  rewrite Hc, Hd.
  unfold Execute, bind, gets, ret, modify. rewrite Hd. cbn [negb]. cbv beta iota.
  rewrite surface_after_litter, Hs. split; reflexivity.
Qed.

Lemma Execute_agrees_with_Query_without_clearance_checks_witness :
  Error (fst (Execute globals_no_clearance (action_at 16 0) world_flat_14)) = Ok /\
  Cost (fst (Execute globals_no_clearance (action_at 16 0) world_flat_14))
  = Cost (fst (Query clear_everywhere globals_no_clearance (action_at 16 0) world_flat_14)).
Proof.
  apply (Execute_agrees_with_Query_without_clearance_checks clear_everywhere
           globals_no_clearance (action_at 16 0) world_flat_14);
    [reflexivity | vm_compute; reflexivity].
Defined.

Lemma small_scenery_removal_loop_none act fuel a p :
  elt_get a p = None -> small_scenery_removal_loop act fuel a p = a.
Proof.
  intro H. destruct fuel as [| f]; simpl; [reflexivity |].
  rewrite H. unfold is_last. rewrite H. reflexivity.
Qed.

Lemma small_scenery_removal_loop_keeps act n a p fuel :
  0 <= p -> (length a <= Z.to_nat p + n)%nat ->
  (forall q e, In (q, e) (tile_walk n a p) -> removable_small_scenery act e = false) ->
  small_scenery_removal_loop act fuel a p = a.
Proof.
  revert p fuel. induction n as [| n IH]; intros p fuel Hp Hl Hw.
  - apply small_scenery_removal_loop_none. unfold elt_get.
    destruct (p <? 0); [reflexivity |]. apply nth_error_None. lia.
  - destruct (elt_get a p) as [e |] eqn:Eg; [| apply small_scenery_removal_loop_none, Eg].
    assert (He : removable_small_scenery act e = false)
      by (apply (Hw p); simpl; rewrite Eg; left; reflexivity).
    destruct fuel as [| f]; simpl; [reflexivity |].
    rewrite Eg, He. unfold is_last. rewrite Eg.
    destruct (last_for_tile e) eqn:El; [reflexivity |].
    apply IH; [lia | rewrite Z2Nat.inj_add by lia; simpl; lia |].
    intros q x Hin. apply (Hw q). simpl. rewrite Eg, El. right. exact Hin.
Qed.

(** When no element of the tile is small scenery in the height range,
    [SmallSceneryRemoval] leaves the world exactly as it was. *)
Theorem SmallSceneryRemoval_nothing_to_remove act w :
  (forall p e, In (p, e) (tile_stack w (_coords act)) -> removable_small_scenery act e = false) ->
  SmallSceneryRemoval act w = w.
Proof.
  unfold SmallSceneryRemoval, tile_stack. intro H.
  destruct (map_get_first_element_at w (_coords act)) as [p |]; [| reflexivity].
  destruct (p <? 0) eqn:Ep.
  - rewrite small_scenery_removal_loop_none
      by (unfold elt_get; rewrite Ep; reflexivity).
    destruct w; reflexivity.
  - apply Z.ltb_ge in Ep.
    rewrite (small_scenery_removal_loop_keeps act (length (tile_elements w))) by (auto; lia).
    destruct w; reflexivity.
Qed.

Lemma SmallSceneryRemoval_nothing_to_remove_witness :
  SmallSceneryRemoval (action_at 30 0) world_tree = world_tree.
Proof.
  apply SmallSceneryRemoval_nothing_to_remove.
  intros p e H. vm_compute in H.
  destruct H as [H | [H | []]]; injection H as <- <-; reflexivity.
Defined.

Lemma set_surface_height_element_keeps act e :
  GetType (set_surface_height_element act e) = GetType e /\
  last_for_tile (set_surface_height_element act e) = last_for_tile e.
Proof.
  destruct e as [p b c gh l].
  unfold set_surface_height_element, SetSlope, with_clearance_height, with_base_height,
    with_payload, GetWaterHeight, SetWaterHeight, GetType.
  destruct p; cbn; destruct_ifs; cbn; auto.
Qed.

Lemma tile_walk_update n a i f p :
  (forall e, last_for_tile (f e) = last_for_tile e) ->
  tile_walk n (elt_update a i f) p
  = map (fun qe => (fst qe, if fst qe =? i then f (snd qe) else snd qe)) (tile_walk n a p).
Proof.
  intro Hf. revert p. induction n as [| n IH]; intro p; simpl; [reflexivity |].
  rewrite elt_get_update.
  destruct (p =? i) eqn:Ep; destruct (elt_get a p) as [e |]; simpl; try reflexivity;
    rewrite ?Ep, ?Hf; destruct (last_for_tile e); simpl; rewrite ?IH; reflexivity.
Qed.

Lemma find_first_update P f si s l :
  (forall e, P (f e) = P e) ->
  find_first P l = Some (si, s) ->
  find_first P (map (fun qe => (fst qe, if fst qe =? si then f (snd qe) else snd qe)) l)
  = Some (si, f s).
Proof.
  intro Hf. induction l as [| [q x] r IH]; simpl; [discriminate |].
  destruct (P x) eqn:Ex.
  - intro H. injection H as <- <-. rewrite Z.eqb_refl, Hf, Ex. reflexivity.
  - intro H. destruct (q =? si); rewrite ?Hf, Ex; exact (IH H).
Qed.

Lemma first_element_set_elements w a c :
  map_get_first_element_at (set_elements w a) c = map_get_first_element_at w c.
Proof. reflexivity. Qed.

Lemma surface_after_SetSurfaceHeight act si s w c :
  map_get_surface_element_at w c = Some (si, s) ->
  map_get_surface_element_at (SetSurfaceHeight act si w) c
  = Some (si, set_surface_height_element act s).
Proof.
  intro H. unfold map_get_surface_element_at, tile_stack, SetSurfaceHeight in *.
  rewrite first_element_set_elements.
  unfold set_elements. cbn [tile_elements]. rewrite elt_update_length.
  destruct (map_get_first_element_at w c) as [p |]; [| discriminate].
  rewrite tile_walk_update by (intro e; apply set_surface_height_element_keeps).
  apply find_first_update; [| exact H].
  intro e. unfold is_type. rewrite (proj1 (set_surface_height_element_keeps act e)). reflexivity.
Qed.

(** With the clearance checks cheat on and a style within
    [TILE_ELEMENT_SURFACE_SLOPE_MASK], running a successful Execute a second
    time on the world it left succeeds again and costs nothing: the surface
    already has the target height and slope. *)
Theorem Execute_again_costs_nothing g act w :
  gCheatsDisableClearanceChecks g = true ->
  Z.land (_style act) TILE_ELEMENT_SURFACE_SLOPE_MASK = _style act ->
  Error (fst (Execute g act w)) = Ok ->
  Error (fst (Execute g act (snd (Execute g act w)))) = Ok /\
  Cost (fst (Execute g act (snd (Execute g act w)))) = 0.
Proof.
  intros Hd Hm Hok.
  destruct (Execute_ok_cost g act w _ eq_refl Hok) as (si & s & Hs & _).
  rewrite Hd, surface_after_litter in Hs.
  destruct (surface_element_in_store _ _ _ _ Hs) as [_ Ht].
  unfold GetType in Ht.
  destruct (payload s) as [sl wh o t | | | | | | |] eqn:Hp; try discriminate.
  destruct (set_surface_height_element_shape act s sl wh o t Hp) as (Hb & _ & Hsl & _).
  rewrite Execute_world. cbv zeta. rewrite Hd, surface_after_litter, Hs.
  assert (Hs' : map_get_surface_element_at
                  (SetSurfaceHeight act si
                     (footpath_remove_litter
                        {| px := cx (_coords act); py := cy (_coords act);
                           pz := tile_element_height w (_coords act) |} w)) (_coords act)
                = Some (si, set_surface_height_element act s)).
  { apply surface_after_SetSurfaceHeight. rewrite surface_after_litter. exact Hs. }
  unfold Execute, bind, gets, ret, modify. rewrite Hd. cbn [negb]. cbv beta iota.
  rewrite surface_after_litter, Hs'. cbn [Error Cost OkResult]. split; [reflexivity |].
  assert (Hz : forall i, corner_cost act (set_surface_height_element act s) i = 0).
  { intro i. apply (corner_cost_value act (set_surface_height_element act s) i).
    unfold tile_element_get_corner_height. rewrite Hb, Hsl, Hm. apply Z.sub_diag. }
  unfold GetSurfaceHeightChangeCost. rewrite !Hz. reflexivity.
Qed.

Lemma Execute_again_costs_nothing_witness :
  Cost (fst (Execute globals_no_clearance (action_at 16 5) world_flat_14)) = 300 /\
  Error (fst (Execute globals_no_clearance (action_at 16 5)
                (snd (Execute globals_no_clearance (action_at 16 5) world_flat_14)))) = Ok /\
  Cost (fst (Execute globals_no_clearance (action_at 16 5)
               (snd (Execute globals_no_clearance (action_at 16 5) world_flat_14)))) = 0.
Proof.
  split; [vm_compute; reflexivity |].
  apply (Execute_again_costs_nothing globals_no_clearance (action_at 16 5) world_flat_14);
    vm_compute; reflexivity.
Defined.

Lemma is_STR_NONE_eq s : is_STR_NONE s = true -> s = STR_NONE.
Proof. destruct s; try discriminate; reflexivity. Qed.

(** What an approval by Query guarantees: the three gates pass (landscape
    changes allowed, parameters valid, cell owned unless in the editor or
    sandbox mode), no protected tree is in the way, the ride supports can be
    extended, and the cell has a surface element with no active level
    crossing at its height and no floating structure in the way. *)
Theorem Query_ok_guarantees F g act w :
  Error (fst (Query F g act w)) = Ok ->
  query_gates_pass g act w /\
  (gCheatsDisableClearanceChecks g = true
   \/ Z.land (gParkFlags g) PARK_FLAGS_FORBID_TREE_REMOVAL = 0
   \/ CheckTreeObstructions act w = None) /\
  (gCheatsDisableSupportLimits g = true \/ CheckRideSupports act w = STR_NONE) /\
  exists si s, map_get_surface_element_at w (_coords act) = Some (si, s) /\
    (forall pi pe, map_get_footpath_element w {| px := cx (_coords act); py := cy (_coords act);
                                                pz := GetBaseZ s |} = Some (pi, pe) ->
                   IsLevelCrossing pe = false) /\
    CheckFloatingStructures act w si s (_height act) = None.
Proof.
  intro Hok. remember (fst (Query F g act w)) as r eqn:Er.
  unfold Query, bind, gets, ret in Er.
  destruct_all_in Er; subst r; simpl in Hok; try discriminate.
  all: zbool; try discriminate.
  all: split;
    [ unfold query_gates_pass; split; [assumption |];
      split; [apply is_STR_NONE_eq; assumption |];
      first [left; assumption | right; left; assumption | right; right; assumption] |].
  all: split;
    [ first [left; assumption | right; left; assumption | right; right; reflexivity
            | right; right; assumption] |].
  all: split; [first [left; assumption | right; apply is_STR_NONE_eq; assumption] |].
  all: exists z, t; split; [reflexivity |]; split; [| assumption].
  all: intros pi pe Hpe; rewrite Hpe in *; assumption.
Qed.

Lemma Query_ok_guarantees_witness :
  Error (fst (Query clear_everywhere default_globals (action_at 16 0) world_flat_14)) = Ok /\
  exists si s, map_get_surface_element_at world_flat_14 tile_1_0 = Some (si, s).
Proof.
  split; [vm_compute; reflexivity |].
  destruct (Query_ok_guarantees clear_everywhere default_globals (action_at 16 0) world_flat_14)
    as (_ & _ & _ & si & s & Hs & _); [vm_compute; reflexivity |].
  exists si, s. exact Hs.
Defined.

(** A Query that does not approve the change never carries a cost or an
    expenditure type: every refusal is free. *)
Theorem Query_refusal_is_free F g act w :
  Error (fst (Query F g act w)) <> Ok ->
  Cost (fst (Query F g act w)) = 0 /\ Expenditure (fst (Query F g act w)) = None.
Proof.
  intro Hn. remember (fst (Query F g act w)) as r eqn:Er.
  unfold Query, bind, gets, ret in Er.
  destruct_all_in Er; subst r; simpl in *; try (split; reflexivity); contradiction.
Qed.

Lemma Query_refusal_is_free_witness :
  Error (fst (Query clear_everywhere default_globals (action_at 14 0) world_level_crossing))
  = Disallowed /\
  Cost (fst (Query clear_everywhere default_globals (action_at 14 0) world_level_crossing)) = 0.
Proof.
  split; [vm_compute; reflexivity |].
  apply (Query_refusal_is_free clear_everywhere default_globals
           (action_at 14 0) world_level_crossing).
  vm_compute. discriminate.
Defined.

(** [CheckFloatingStructures] as Query calls it, with [zCorner] the target
    height, for parameters that [CheckParameters] accepts, on a surface
    whose track needs water and whose stored water level [wh] is a byte:
    with no water it finds nothing; otherwise its [uint8_t] and [uint32_t]
    arithmetic does not wrap, and it reports the element after the surface
    exactly when the highest corner (the height, plus 2 for any slope bit,
    plus 2 more for a diagonal slope) is above [2 * wh - 2], two units below
    the water surface in height units. *)
Theorem CheckFloatingStructures_water_level act g w si s sl wh o :
  CheckParameters act g = STR_NONE ->
  payload s = SurfacePayload sl wh o true -> 0 <= wh <= 255 ->
  CheckFloatingStructures act w si s (_height act)
  = if wh =? 0 then None
    else if _height act + (if Z.land (_style act) TILE_ELEMENT_SURFACE_SLOPE_MASK =? 0 then 0
                           else if Z.land (_style act) TILE_ELEMENT_SURFACE_DIAGONAL_FLAG =? 0
                           then 2 else 4) >? 2 * wh - 2
    then Some (elt_get (tile_elements w) (si + 1)) else None.
Proof.
  intros Hc Hp Hwh.
  pose proof (CheckParameters_none_bounds act g Hc) as (_ & _ & _ & Hh & Hs & Hd).
  unfold MINIMUM_LAND_HEIGHT, MAXIMUM_LAND_HEIGHT in *.
  unfold CheckFloatingStructures, HasTrackThatNeedsWater, GetWaterHeight.
  rewrite Hp. unfold WATER_HEIGHT_STEP, COORDS_Z_STEP, u32, u8.
  rewrite (Z.mod_small (wh * 16)) by lia.
  destruct (Z.eqb_spec wh 0) as [-> | Hnz]; [reflexivity |].
  replace (wh * 16 =? 0) with false by (symmetry; apply Z.eqb_neq; lia).
  replace (wh * 16 / 8) with (wh * 2)
    by (replace (wh * 16) with (wh * 2 * 8) by ring; rewrite Z.div_mul by lia; reflexivity).
  rewrite (Z.mod_small (wh * 2 - 2)) by lia.
  replace (2 * wh - 2) with (wh * 2 - 2) by ring.
  destruct (Z.eqb_spec (Z.land (_style act) TILE_ELEMENT_SURFACE_SLOPE_MASK) 0) as [E31 | N31];
    [rewrite Z.add_0_r; reflexivity |].
  destruct Hs as [Hs | Hs]; [| contradiction].
  rewrite (Z.mod_small (_height act + 2)) by lia.
  destruct (Z.eqb_spec (Z.land (_style act) TILE_ELEMENT_SURFACE_DIAGONAL_FLAG) 0) as [E16 | N16];
    [reflexivity |].
  destruct Hd as [Hd | Hd]; [| contradiction].
  rewrite Z.mod_small by lia. rewrite <- Z.add_assoc. reflexivity.
Qed.

Lemma CheckFloatingStructures_water_level_witness :
  CheckFloatingStructures (action_at 252 TILE_ELEMENT_SLOPE_N_CORNER_UP) world_flat_14 1
    (mkElement (SurfacePayload 0 127 true true) 8 8 true) 252
  = Some (elt_get (tile_elements world_flat_14) 2) /\
  CheckFloatingStructures (action_at 10 0) world_flat_14 1
    (mkElement (SurfacePayload 0 6 true true) 8 8 true) 10
  = None.
Proof.
  split.
  - change (CheckFloatingStructures ?a ?w ?i ?e 252)
      with (CheckFloatingStructures a w i e (_height a)).
    rewrite (CheckFloatingStructures_water_level (action_at 252 TILE_ELEMENT_SLOPE_N_CORNER_UP)
               default_globals world_flat_14 1
               (mkElement (SurfacePayload 0 127 true true) 8 8 true) 0 127 true)
      by first [lia | vm_compute; reflexivity].
    vm_compute. reflexivity.
  - change (CheckFloatingStructures ?a ?w ?i ?e 10)
      with (CheckFloatingStructures a w i e (_height a)).
    rewrite (CheckFloatingStructures_water_level (action_at 10 0) default_globals world_flat_14 1
               (mkElement (SurfacePayload 0 6 true true) 8 8 true) 0 6 true)
      by first [lia | vm_compute; reflexivity].
    vm_compute. reflexivity.
Defined.
